(** * ollama-models: resolution of model references and file-set computation

    A shallow embedding of [ollama-models.py] and of the parts of Python's
    [posixpath], [str] and [re] that it calls, followed by the properties
    of the manifest resolver, the file-set builder, the root consistency
    check and the four commands.

    Python [str] is [string], Python [int] is [Z], an exception is a value
    of [exception] carried by [result].  [os.path] is [posixpath], as on
    Linux and macOS.  The file system is read through the record [world];
    the commands write through a trace of [effect]s, one for each call of
    [print], [makedirs], [copy2] and of the archive writers, which are taken
    to succeed. *)

From Stdlib Require Import ZArith Ascii String.
From stdpp Require Import base list strings gmap.

Local Open Scope Z_scope.

(** ** Exceptions and results *)

(** [KnownError] is the class of line 14.  [ValueError] is raised by
    [posixpath.relpath]; [OtherError] stands for every exception the script
    does not raise itself ([OSError] from [open], [JSONDecodeError],
    [KeyError] and [TypeError] on an ill-formed manifest, ...). *)
Inductive exception :=
| KnownError (msg : string)
| ValueError (msg : string)
| OtherError (msg : string).

Inductive result (A : Type) :=
| Ok (a : A)
| Raise (e : exception).
Arguments Ok {A} a.
Arguments Raise {A} e.

(** Sequencing: the first exception ends the computation. *)
#[global] Instance result_ret : MRet result := λ A a, Ok a.
#[global] Instance result_bind : MBind result := λ A B k r,
  match r with
  | Ok a => k a
  | Raise e => Raise e
  end.

(** ** Python [str] methods used by the script *)

Module str.

Definition is_empty (s : string) : bool :=
  match s with EmptyString => true | String _ _ => false end.

(** [s.startswith(p)] *)
Definition startswith (p s : string) : bool := String.prefix p s.

(** [s.endswith(c)] for a one-character [c] *)
Fixpoint endswith (c : ascii) (s : string) : bool :=
  match s with
  | EmptyString => false
  | String a EmptyString => Ascii.eqb a c
  | String _ r => endswith c r
  end.

(** [c * n] *)
Fixpoint mul (c : ascii) (n : nat) : string :=
  match n with
  | O => EmptyString
  | S n => String c (mul c n)
  end.

(** [s.rfind(c)]: the highest index of [c] in [s], or [-1]. *)
Fixpoint rfind (c : ascii) (s : string) : Z :=
  match s with
  | EmptyString => -1
  | String a r =>
      let k := rfind c r in
      if 0 <=? k then k + 1 else if Ascii.eqb a c then 0 else -1
  end.

(** [s[:i]] for [0 <= i] *)
Definition slice_to (i : Z) (s : string) : string :=
  String.substring 0 (Z.to_nat i) s.

(** [s.rstrip(c)] *)
Fixpoint rstrip (c : ascii) (s : string) : string :=
  match s with
  | EmptyString => EmptyString
  | String a r =>
      match rstrip c r with
      | EmptyString => if Ascii.eqb a c then EmptyString else String a EmptyString
      | r' => String a r'
      end
  end.

(** [s.split(c)]: never the empty list. *)
Fixpoint split (c : ascii) (s : string) : list string :=
  match s with
  | EmptyString => [EmptyString]
  | String a r =>
      if Ascii.eqb a c then EmptyString :: split c r
      else match split c r with
           | h :: t => String a h :: t
           | [] => [String a EmptyString]
           end
  end.

(** [c.join(l)] *)
Fixpoint join (c : string) (l : list string) : string :=
  match l with
  | [] => EmptyString
  | [x] => x
  | x :: r => x +:+ c +:+ join c r
  end.

(** [s.replace(a, b)] for one-character [a] and [b] *)
Fixpoint replace (a b : ascii) (s : string) : string :=
  match s with
  | EmptyString => EmptyString
  | String c r => String (if Ascii.eqb c a then b else c) (replace a b r)
  end.

End str.

(** ** [posixpath] *)

Module path.

Definition sep : ascii := "/"%char.
Definition curdir : string := ".".
Definition pardir : string := "..".

Definition isabs (s : string) : bool := str.startswith "/" s.

(** One round of the loop of [posixpath.join]. *)
Definition join2 (path b : string) : string :=
  if str.startswith "/" b then b
  else if str.is_empty path || str.endswith sep path then path +:+ b
  else path +:+ "/" +:+ b.

(** [join(a, *p)] *)
Definition join (a : string) (p : list string) : string := foldl join2 a p.

Definition dirname (p : string) : string :=
  let i := str.rfind sep p + 1 in
  let head := str.slice_to i p in
  if negb (str.is_empty head)
     && negb (String.eqb head (str.mul sep (String.length head)))
  then str.rstrip sep head
  else head.

(** The value of [initial_slashes] in [normpath]: 0, 1 or 2. *)
Definition initial_slashes (path : string) : nat :=
  if str.startswith "/" path then
    if str.startswith "//" path && negb (str.startswith "///" path)
    then 2%nat else 1%nat
  else 0%nat.

(** The body of the loop over [comps] in [normpath]. *)
Definition norm_step (slashes : nat) (new_comps : list string) (comp : string)
  : list string :=
  if String.eqb comp "" || String.eqb comp "." then new_comps
  else if negb (String.eqb comp "..")
          || (Nat.eqb slashes 0 && bool_decide (new_comps = []))
          || bool_decide (last new_comps = Some pardir)
  then new_comps ++ [comp]
  else if bool_decide (new_comps ≠ []) then removelast new_comps
  else new_comps.

Definition normpath (path : string) : string :=
  if str.is_empty path then curdir
  else
    let slashes := initial_slashes path in
    let comps := foldl (norm_step slashes) [] (str.split sep path) in
    let path := str.mul sep slashes +:+ str.join "/" comps in
    if str.is_empty path then curdir else path.

(** [abspath], with the result of [os.getcwd()] as a parameter. *)
Definition abspath (cwd path : string) : string :=
  normpath (if isabs path then path else join2 cwd path).

(** [len(commonprefix([l1, l2]))] for two lists of components. *)
Fixpoint commonprefix_len (l1 l2 : list string) : nat :=
  match l1, l2 with
  | x :: r1, y :: r2 => if String.eqb x y then S (commonprefix_len r1 r2) else O
  | _, _ => O
  end.

Definition nonempty_comps (s : string) : list string :=
  filter (λ x, x ≠ EmptyString) (str.split sep s).

(** [relpath(path, start)] with an explicit [start]. *)
Definition relpath (cwd path start : string) : result string :=
  if str.is_empty path then Raise (ValueError "no path specified")
  else
    let start_list := nonempty_comps (abspath cwd start) in
    let path_list := nonempty_comps (abspath cwd path) in
    let i := commonprefix_len start_list path_list in
    let rel_list := replicate (length start_list - i) pardir ++ drop i path_list in
    match rel_list with
    | [] => Ok curdir
    | a :: p => Ok (join a p)
    end.

End path.

(** ** The data model (lines 32-53) *)

Module ManifestLayer.
Record t := mk { mediaType : string; digest : string; size : Z }.
End ManifestLayer.

Module Manifest.
Record t := mk {
  schemaVersion : Z;
  mediaType : string;
  config : ManifestLayer.t;
  layers : list ManifestLayer.t
}.
End Manifest.

Module ManifestData.
Record t := mk { root : string; files : list string; size : Z }.
End ManifestData.

(** ** What the script reads from its environment

    [getcwd] is [os.getcwd()], [isfile] is [os.path.isfile], [open_read] is
    the text of a file opened for reading and [json_load] the JSON decoder
    with its result typed as a [Manifest].  The model covers the documents
    whose fields have the types that [ManifestLayer] and [Manifest] declare,
    sizes being integers.  A document without one of the fields is an
    exception here, where Python raises on the access of lines 61-71,
    before the existence check in both cases.  A document that [json.load]
    accepts with fields of other types (a size that is a float, say) is
    outside the model. *)
Record world := World {
  getcwd : string;
  isfile : string → bool;
  open_read : string → result string;
  json_load : string → result Manifest.t
}.

(** ** Side effects of the commands *)

Inductive effect :=
| Print (line : string)
| Makedirs (dir : string)
| Copy2 (src dst : string)
| TarOpen (archive_path : string)
| TarAdd (name arcname : string)
| TarClose
| ZipOpen (archive_path : string)
| ZipWrite (filename arcname : string)
| ZipClose.

(** A computation that performs effects in order and then returns or raises. *)
Definition io (A : Type) : Type := list effect * result A.

#[global] Instance io_ret : MRet io := λ A a, ([], Ok a).
#[global] Instance io_bind : MBind io := λ A B k m,
  match m with
  | (t, Ok a) => let '(t', r) := k a in (t ++ t', r)
  | (t, Raise e) => (t, Raise e)
  end.

Definition lift {A} (r : result A) : io A := ([], r).
Definition emit (e : effect) : io unit := ([e], Ok ()).

(** [for x in l: body(x)] *)
Fixpoint for_each {A} (l : list A) (body : A → io unit) : io unit :=
  match l with
  | [] => mret ()
  | x :: r => body x ≫= λ _, for_each r body
  end.

(** ** The script *)

Section script.
Context (w : world).

(** Lines 45-47. *)
Definition read_ollama_manifest (manifest_path : string) : result Manifest.t :=
  open_read w manifest_path ≫= json_load w.

(** Line 58: five nested [dirname]; the name is the one the specification
    gives to this expression. *)
Definition RootResolver (manifest_absolute_path : string) : string :=
  path.dirname (path.dirname (path.dirname (path.dirname
    (path.dirname manifest_absolute_path)))).

(** Line 68: the blob path of a digest, under the name the specification
    gives to this expression. *)
Definition toBlobPath (digest : string) : string :=
  path.join "blobs" [str.replace ":" "-" digest].

(** Lines 73-76. *)
Fixpoint check_files (root : string) (files : list string) : result unit :=
  match files with
  | [] => Ok ()
  | f :: rest =>
      let abs_path := path.join root [f] in
      if isfile w abs_path then check_files root rest
      else Raise (KnownError ("File not found: " +:+ abs_path))
  end.

(** [sum(...)]: from 0, adding the elements from the first to the last. *)
Definition sum_Z (l : list Z) : Z := foldl Z.add 0 l.

(** Lines 56-78. *)
Definition get_ollama_manifest_data (manifest : string) : result ManifestData.t :=
  let manifest_absolute_path := path.abspath (getcwd w) manifest in
  let root := RootResolver manifest_absolute_path in
  manifest_data ← read_ollama_manifest manifest_absolute_path;
  let digests :=
    ManifestLayer.digest (Manifest.config manifest_data)
    :: map ManifestLayer.digest (Manifest.layers manifest_data) in
  rel ← path.relpath (getcwd w) manifest_absolute_path root;
  let files := rel :: map toBlobPath digests in
  let size :=
    sum_Z (map ManifestLayer.size (Manifest.layers manifest_data))
    + ManifestLayer.size (Manifest.config manifest_data) in
  _ ← check_files root files;
  Ok (ManifestData.mk root files size).

(** Lines 81-82: the list comprehension stops at the first exception. *)
Fixpoint get_ollama_manifests_data (manifests : list string)
  : result (list ManifestData.t) :=
  match manifests with
  | [] => Ok []
  | manifest :: rest =>
      d ← get_ollama_manifest_data manifest;
      ds ← get_ollama_manifests_data rest;
      Ok (d :: ds)
  end.

(** Lines 85-87: a Python [set] of the roots. *)
Definition check_single_ollama_root (manifests_data : list ManifestData.t)
  : result unit :=
  let roots : gset string := list_to_set (map ManifestData.root manifests_data) in
  if bool_decide (size roots ≠ 1%nat)
  then Raise (KnownError "All manifests must be in the same OLLAMA_MODELS directory.")
  else Ok ().

(** Lines 90-97. *)
Definition list_command (manifests : list string) : io unit :=
  manifests_data ← lift (get_ollama_manifests_data manifests);
  _ ← lift (check_single_ollama_root manifests_data);
  for_each manifests_data (λ manifest_data,
    for_each (ManifestData.files manifest_data) (λ file, emit (Print file))).

(** Lines 100-110. *)
Definition copy_command (manifests : list string) (destination : string) : io unit :=
  manifests_data ← lift (get_ollama_manifests_data manifests);
  for_each manifests_data (λ manifest_data,
    for_each (ManifestData.files manifest_data) (λ file,
      let source_path := path.join (ManifestData.root manifest_data) [file] in
      let destination_path := path.join destination [file] in
      let destination_dir := path.dirname destination_path in
      _ ← emit (Makedirs destination_dir);
      emit (Copy2 source_path destination_path))).

(** Lines 113-122; ["-"] as [archive_path] is the standard output. *)
Definition tar_command (manifests : list string) (archive_path : string) : io unit :=
  manifests_data ← lift (get_ollama_manifests_data manifests);
  _ ← emit (TarOpen archive_path);
  _ ← for_each manifests_data (λ data,
    for_each (ManifestData.files data) (λ file,
      emit (TarAdd (path.join (ManifestData.root data) [file]) file)));
  emit TarClose.

(** Lines 125-133. *)
Definition zip_command (manifests : list string) (archive_path : string) : io unit :=
  manifests_data ← lift (get_ollama_manifests_data manifests);
  _ ← emit (ZipOpen archive_path);
  _ ← for_each manifests_data (λ data,
    for_each (ManifestData.files data) (λ file,
      emit (ZipWrite (path.join (ManifestData.root data) [file]) file)));
  emit ZipClose.

(** *** The pattern of line 142

    [^ NAME : TAG $] matched by [re.match], where the groups NAME and TAG are
    each one character of [a-zA-Z0-9] and then any number of characters of
    [a-zA-Z0-9._-].  The two classes exclude the colon and the newline, so
    the greedy stars never have to give a character back. *)

Definition in_range (lo hi c : ascii) : bool :=
  Nat.leb (nat_of_ascii lo) (nat_of_ascii c) && Nat.leb (nat_of_ascii c) (nat_of_ascii hi).

(** [[a-zA-Z0-9]] *)
Definition alnum (c : ascii) : bool :=
  in_range "a" "z" c || in_range "A" "Z" c || in_range "0" "9" c.

(** [[a-zA-Z0-9._-]] *)
Definition word (c : ascii) : bool :=
  alnum c || Ascii.eqb c "." || Ascii.eqb c "_" || Ascii.eqb c "-".

Definition newline : ascii := "010"%char.

(** A greedy star of a class: the longest prefix in the class, and the rest. *)
Fixpoint span (p : ascii → bool) (s : string) : string * string :=
  match s with
  | EmptyString => (EmptyString, EmptyString)
  | String c r =>
      if p c then let '(a, b) := span p r in (String c a, b)
      else (EmptyString, s)
  end.

(** One group at the start of [s]: the group and the rest. *)
Definition match_ident (s : string) : option (string * string) :=
  match s with
  | EmptyString => None
  | String c r =>
      if alnum c then let '(a, b) := span word r in Some (String c a, b)
      else None
  end.

(** [$] without [re.MULTILINE]: the end of the string, or just before a
    newline that ends the string. *)
Definition at_dollar (s : string) : bool :=
  match s with
  | EmptyString => true
  | String c EmptyString => Ascii.eqb c newline
  | _ => false
  end.

(** [model_pattern.match(s)]: the groups [name] and [tag] of a match. *)
Definition model_pattern_match (s : string) : option (string * string) :=
  match match_ident s with
  | Some (name, String c r) =>
      if Ascii.eqb c ":" then
        match match_ident r with
        | Some (tag, r') => if at_dollar r' then Some (name, tag) else None
        | None => None
        end
      else None
  | _ => None
  end.

(** Lines 145-160: the body of the loop of [gen], for one value. *)
Definition resolve_one (models_dir model_or_manifest : string) : result string :=
  match model_pattern_match model_or_manifest with
  | Some (name, tag) =>
      let manifest :=
        path.join models_dir ["manifests"; "registry.ollama.ai"; "library"; name; tag] in
      if isfile w manifest then Ok manifest
      else Raise (KnownError
             (model_or_manifest +:+ " manifest's not found: " +:+ manifest))
  | None =>
      if isfile w model_or_manifest then Ok model_or_manifest
      else Raise (KnownError ("File not found: " +:+ model_or_manifest))
  end.

(** [list(gen())]: [acc] is the list built so far from the values the
    generator has yielded; an exception in the generator leaves [list]
    without a value. *)
Fixpoint gen (models_dir : string) (values : list string) (acc : list string)
  : result (list string) :=
  match values with
  | [] => Ok acc
  | model_or_manifest :: rest =>
      match resolve_one models_dir model_or_manifest with
      | Ok manifest => gen models_dir rest (acc ++ [manifest])
      | Raise e => Raise e
      end
  end.

(** Lines 136-162. *)
Definition resolve_manifests (values : list string) (models_dir : string)
  : result (list string) :=
  gen models_dir values [].

End script.

(** *** The entry point (lines 213-227)

    The arguments as [argparse] leaves them, for the four sub-commands, with
    [--archive] given. *)

Inductive command :=
| CmdList
| CmdCopy (to : string)
| CmdTar (archive : string)
| CmdZip (archive : string).

Record args := Args { args_command : command; args_model : list string; args_models_dir : string }.

(** How the process ends: normally, through [sys.exit(str(e))] with the
    message on the error stream, or with an exception nobody caught. *)
Inductive exit :=
| ExitOk
| SysExit (msg : string)
| Uncaught (e : exception).

Definition main (w : world) (a : args) : list effect * exit :=
  let run : io unit :=
    manifests ← lift (resolve_manifests w (args_model a) (args_models_dir a));
    match args_command a with
    | CmdList => list_command w manifests
    | CmdCopy to => copy_command w manifests to
    | CmdTar archive => tar_command w manifests archive
    | CmdZip archive => zip_command w manifests archive
    end in
  match run with
  | (t, Ok _) => (t, ExitOk)
  | (t, Raise (KnownError msg)) => (t, SysExit msg)
  | (t, Raise e) => (t, Uncaught e)
  end.

(** ** A small store, used to run the definitions

    One model under [/srv/models] with a config blob of 100 bytes and two
    layers of 200 and 300 bytes. *)

Definition sample_manifest : Manifest.t :=
  Manifest.mk 2 "application/vnd.docker.distribution.manifest.v2+json"
    (ManifestLayer.mk "application/vnd.docker.container.image.v1+json" "sha256:c0" 100)
    [ ManifestLayer.mk "application/vnd.ollama.image.model" "sha256:a1" 200;
      ManifestLayer.mk "application/vnd.ollama.image.license" "sha256:b2" 300 ].

Definition sample_manifest_path : string :=
  "/srv/models/manifests/registry.ollama.ai/library/llama3/8b".

Definition sample_store (blobs : list string) : world :=
  World "/home/user"
    (λ p, bool_decide (p ∈ sample_manifest_path :: blobs))
    (λ p, if bool_decide (p = sample_manifest_path) then Ok "<llama3:8b>"
          else Raise (OtherError "FileNotFoundError"))
    (λ text, if bool_decide (text = "<llama3:8b>") then Ok sample_manifest
             else Raise (OtherError "JSONDecodeError")).

(** Every blob is present. *)
Definition sample_world : world :=
  sample_store [ "/srv/models/blobs/sha256-c0";
                 "/srv/models/blobs/sha256-a1";
                 "/srv/models/blobs/sha256-b2" ].

(** The file set of the model in [sample_world]. *)
Definition sample_data : ManifestData.t :=
  ManifestData.mk "/srv/models"
    [ "manifests/registry.ollama.ai/library/llama3/8b";
      "blobs/sha256-c0"; "blobs/sha256-a1"; "blobs/sha256-b2" ]
    600.

(** The second layer is missing. *)
Definition broken_world : world :=
  sample_store [ "/srv/models/blobs/sha256-c0"; "/srv/models/blobs/sha256-a1" ].

(** ** Notions on strings and paths used in the statements *)

(** No character of [s] is [c]. *)
Fixpoint lacks (c : ascii) (s : string) : bool :=
  match s with
  | EmptyString => true
  | String a r => negb (Ascii.eqb a c) && lacks c r
  end.

(** Every character of [s] is [c]. *)
Fixpoint only (c : ascii) (s : string) : bool :=
  match s with
  | EmptyString => true
  | String a r => Ascii.eqb a c && only c r
  end.

(** The number of characters [c] at the start of [s]. *)
Fixpoint leading (c : ascii) (s : string) : nat :=
  match s with
  | EmptyString => O
  | String a r => if Ascii.eqb a c then S (leading c r) else O
  end.

(** A component of a normalised path: not empty, and without a slash. *)
Definition comp_ok (x : string) : Prop := x ≠ "" ∧ lacks path.sep x = true.

(** The path of [k] leading slashes and the components [cs]. *)
Definition path_of (k : nat) (cs : list string) : string :=
  str.mul path.sep k +:+ str.join "/" cs.

(** A component that [normpath] keeps as it is. *)
Definition proper (x : string) : Prop := comp_ok x ∧ x ≠ "." ∧ x ≠ "..".

(** The components [normpath] keeps. *)
Definition norm_comps (s : string) : list string :=
  foldl (path.norm_step (path.initial_slashes s)) [] (str.split path.sep s).

(** What [abspath] hands to [normpath]. *)
Definition anchored (cwd p : string) : string :=
  if path.isabs p then p else path.join2 cwd p.

(** [l] without its last [n] elements. *)
Definition drop_last {A} (n : nat) (l : list A) : list A := take (length l - n) l.

(** The store layout below a root: [manifests/registry.ollama.ai/library/NAME/TAG]. *)
Definition layout (NAME TAG : string) : list string :=
  ["manifests"; "registry.ollama.ai"; "library"; NAME; TAG].

(** ** Notions on the script used in the statements *)

(** The test of lines 74-75 for one entry. *)
Definition present (w : world) (root f : string) : Prop :=
  isfile w (path.join root [f]) = true.

(** The file list of lines 61-69 for a decoded manifest. *)
Definition blob_files (m : Manifest.t) : list string :=
  toBlobPath (ManifestLayer.digest (Manifest.config m))
  :: map (λ layer, toBlobPath (ManifestLayer.digest layer)) (Manifest.layers m).

(** The sum of the sizes of the layers, from the first to the last. *)
Fixpoint layers_size (layers : list ManifestLayer.t) : Z :=
  match layers with
  | [] => 0
  | layer :: rest => ManifestLayer.size layer + layers_size rest
  end.

(** Every character of [s] is in the class [p]. *)
Fixpoint all_chars (p : ascii → bool) (s : string) : bool :=
  match s with
  | EmptyString => true
  | String c r => p c && all_chars p r
  end.

(** [s] does not go on with a character of the class [p]. *)
Definition stops (p : ascii → bool) (s : string) : bool :=
  match s with
  | EmptyString => true
  | String c _ => negb (p c)
  end.

(** One character of [a-zA-Z0-9], then characters of [a-zA-Z0-9._-]. *)
Definition ident (s : string) : bool :=
  match s with
  | EmptyString => false
  | String c r => alnum c && all_chars word r
  end.

(** A reference in the words of the specification: [name:tag] and nothing
    else. *)
Definition is_reference (s : string) : Prop :=
  ∃ name tag, s = name +:+ ":" +:+ tag ∧ ident name = true ∧ ident tag = true.

(** The distinct roots of a list of file sets. *)
Definition roots (data : list ManifestData.t) : gset string :=
  list_to_set (map ManifestData.root data).

(** What each command emits once the file sets are built. *)
Definition list_output (data : list ManifestData.t) : list effect :=
  concat (map (λ d, concat (map (λ file, [Print file]) (ManifestData.files d))) data).

Definition copy_output (destination : string) (data : list ManifestData.t) : list effect :=
  concat (map (λ d, concat (map (λ file,
      [ Makedirs (path.dirname (path.join destination [file]));
        Copy2 (path.join (ManifestData.root d) [file]) (path.join destination [file]) ])
    (ManifestData.files d))) data).

Definition tar_output (archive_path : string) (data : list ManifestData.t) : list effect :=
  TarOpen archive_path
  :: concat (map (λ d, concat (map (λ file,
       [TarAdd (path.join (ManifestData.root d) [file]) file]) (ManifestData.files d))) data)
  ++ [TarClose].

Definition zip_output (archive_path : string) (data : list ManifestData.t) : list effect :=
  ZipOpen archive_path
  :: concat (map (λ d, concat (map (λ file,
       [ZipWrite (path.join (ManifestData.root d) [file]) file]) (ManifestData.files d))) data)
  ++ [ZipClose].

(** ** Other stores used to run the definitions *)

(** A file whose name is a reference followed by a newline, and no store. *)
Definition newline_reference : string := "llama3:8b" +:+ String newline "".

Definition newline_world : world :=
  World "/home/user"
    (λ p, bool_decide (p = newline_reference))
    (λ p, Raise (OtherError "FileNotFoundError"))
    (λ text, Raise (OtherError "JSONDecodeError")).

(** The store of [sample_world] with a second manifest, [llama3:9b], that
    is not JSON. *)
Definition garbled_manifest_path : string :=
  "/srv/models/manifests/registry.ollama.ai/library/llama3/9b".

Definition garbled_world : world :=
  World "/home/user"
    (λ p, isfile sample_world p || bool_decide (p = garbled_manifest_path))
    (λ p, if bool_decide (p = sample_manifest_path) then Ok "<llama3:8b>"
          else if bool_decide (p = garbled_manifest_path) then Ok "{"
          else Raise (OtherError "FileNotFoundError"))
    (λ text, if bool_decide (text = "<llama3:8b>") then Ok sample_manifest
             else Raise (OtherError "JSONDecodeError")).

(** A second store under [/mnt/models] with the same model. *)
Definition other_manifest_path : string :=
  "/mnt/models/manifests/registry.ollama.ai/library/llama3/8b".

Definition other_data : ManifestData.t :=
  ManifestData.mk "/mnt/models"
    [ "manifests/registry.ollama.ai/library/llama3/8b";
      "blobs/sha256-c0"; "blobs/sha256-a1"; "blobs/sha256-b2" ]
    600.

Definition two_stores_world : world :=
  World "/home/user"
    (λ p, bool_decide (p ∈ [ sample_manifest_path; other_manifest_path;
                             "/srv/models/blobs/sha256-c0"; "/srv/models/blobs/sha256-a1";
                             "/srv/models/blobs/sha256-b2";
                             "/mnt/models/blobs/sha256-c0"; "/mnt/models/blobs/sha256-a1";
                             "/mnt/models/blobs/sha256-b2" ]))
    (λ p, if bool_decide (p ∈ [sample_manifest_path; other_manifest_path])
          then Ok "<llama3:8b>" else Raise (OtherError "FileNotFoundError"))
    (λ text, if bool_decide (text = "<llama3:8b>") then Ok sample_manifest
             else Raise (OtherError "JSONDecodeError")).

(** ** The default store (lines 18-29)

    What [get_ollama_models_dir] reads: the environment, [sys.platform] and
    the result of [os.path.expanduser]. *)

Record platform := Platform {
  environ_get : string → option string;
  sys_platform : string;
  expanduser : string → string
}.

(** Lines 18-29.  [if ollama_models:] holds for a string that is set and
    not empty. *)
Definition get_ollama_models_dir (p : platform) : string :=
  let default :=
    if bool_decide (sys_platform p ∈ ["win32"; "darwin"])
    then path.join (expanduser p "~") [".ollama"; "models"]
    else "/usr/share/ollama/.ollama/models" in
  match environ_get p "OLLAMA_MODELS" with
  | Some ollama_models =>
      if negb (str.is_empty ollama_models) then ollama_models else default
  | None => default
  end.

(** ** Notions on traces used in the statements *)

(** The files of a list of file sets, in the order the commands visit them. *)
Definition all_files (data : list ManifestData.t) : list string :=
  concat (map ManifestData.files data).

(** The same files, each with the root of its file set. *)
Definition rooted_files (data : list ManifestData.t) : list (string * string) :=
  concat (map (λ d, map (λ file, (ManifestData.root d, file)) (ManifestData.files d)) data).

(** The archive entries of a trace: the file read and the name it gets. *)
Fixpoint entries (t : list effect) : list (string * string) :=
  match t with
  | [] => []
  | TarAdd name arcname :: t => (name, arcname) :: entries t
  | ZipWrite filename arcname :: t => (filename, arcname) :: entries t
  | _ :: t => entries t
  end.

(** * Properties *)

(** Reduces the sequencing of [result] and [io] computations. *)
Ltac result_simpl :=
  cbn [mbind mret result_bind result_ret io_bind io_ret lift emit for_each fst snd].

Tactic Notation "result_simpl" "in" hyp(H) :=
  cbn [mbind mret result_bind result_ret io_bind io_ret lift emit for_each fst snd] in H.

(** Closes a goal about a concrete store by an instance [t] of a theorem,
    after evaluating both; the hypotheses of [t] are then closed equalities. *)
Ltac evaluated t :=
  let H := fresh in
  pose proof t as H; vm_compute in H; vm_compute;
  repeat (first [exact H | specialize (H eq_refl)]).

(** ** Strings *)

Section string_facts.
Implicit Types (s t u : string) (c : ascii).

Lemma sapp_nil_l s : "" +:+ s = s.
Proof. done. Qed.

Lemma sapp_cons c s t : String c s +:+ t = String c (s +:+ t).
Proof. done. Qed.

Lemma sapp_nil_r s : s +:+ "" = s.
Proof. induction s as [|a s IH]; [done | by rewrite sapp_cons, IH]. Qed.

Lemma sapp_assoc s t u : (s +:+ t) +:+ u = s +:+ (t +:+ u).
Proof. induction s as [|a s IH]; [done | by rewrite !sapp_cons, IH]. Qed.

Lemma sapp_length s t : String.length (s +:+ t) = (String.length s + String.length t)%nat.
Proof. induction s as [|a s IH]; [done | by rewrite sapp_cons; simpl; rewrite IH]. Qed.

Lemma sapp_inv_head s t u : s +:+ t = s +:+ u → t = u.
Proof. induction s as [|a s IH]; [done | rewrite !sapp_cons; intros [= H]; auto]. Qed.

Lemma is_empty_true s : str.is_empty s = true ↔ s = "".
Proof. by destruct s. Qed.

Lemma is_empty_app s t : str.is_empty (s +:+ t) = str.is_empty s && str.is_empty t.
Proof. by destruct s. Qed.

Lemma lacks_app c s t : lacks c (s +:+ t) = lacks c s && lacks c t.
Proof.
  induction s as [|a s IH]; [done |].
  rewrite sapp_cons; simpl. by rewrite IH, andb_assoc.
Qed.

Lemma replace_lacks a b s : lacks a s = true → str.replace a b s = s.
Proof.
  induction s as [|c s IH]; simpl; [done |].
  intros [Hc Hs]%andb_true_iff. rewrite IH by done.
  by destruct (Ascii.eqb c a).
Qed.

Lemma replace_app a b s t :
  str.replace a b (s +:+ t) = str.replace a b s +:+ str.replace a b t.
Proof.
  induction s as [|c s IH]; [done |].
  rewrite sapp_cons; simpl. by rewrite IH.
Qed.

Lemma replace_length a b s : String.length (str.replace a b s) = String.length s.
Proof. induction s as [|c s IH]; simpl; [done | by f_equal]. Qed.

Lemma replace_get a b s i :
  String.get i (str.replace a b s)
  = (λ c, if Ascii.eqb c a then b else c) <$> String.get i s.
Proof.
  revert i; induction s as [|c s IH]; intros i; simpl; [done |].
  destruct i; simpl; [done | apply IH].
Qed.

Lemma replace_removes a b s : a ≠ b → lacks a (str.replace a b s) = true.
Proof.
  intros Hab. induction s as [|c s IH]; simpl; [done |].
  rewrite IH, andb_true_r. destruct (Ascii.eqb_spec c a) as [->|Hc].
  - destruct (Ascii.eqb_spec b a); [congruence | done].
  - destruct (Ascii.eqb_spec c a); [congruence | done].
Qed.

End string_facts.

(** ** Paths *)

Section path_facts.
Implicit Types (s t : string) (c : ascii).

Lemma only_mul c n : only c (str.mul c n) = true.
Proof. induction n; simpl; [done | by rewrite Ascii.eqb_refl]. Qed.

Lemma only_app c s t : only c (s +:+ t) = only c s && only c t.
Proof.
  induction s as [|a s IH]; [done |].
  rewrite sapp_cons; simpl. by rewrite IH, andb_assoc.
Qed.

Lemma eqb_mul_only c s : String.eqb s (str.mul c (String.length s)) = only c s.
Proof. induction s as [|a s IH]; simpl; [done | by rewrite IH]. Qed.

Lemma mul_snoc c n : str.mul c (S n) = str.mul c n +:+ String c "".
Proof. induction n; [done |]. simpl in *. by rewrite sapp_cons, <- IHn. Qed.

Lemma split_nonempty c s : str.split c s ≠ [].
Proof.
  destruct s as [|a s]; simpl; [done |].
  destruct (Ascii.eqb a c); [done |]. by destruct (str.split c s).
Qed.

Lemma split_lacks c s : lacks c s = true → str.split c s = [s].
Proof.
  induction s as [|a s IH]; simpl; [done |].
  intros [Ha Hs]%andb_true_iff. apply negb_true_iff in Ha.
  by rewrite Ha, IH.
Qed.

Lemma split_app c s t :
  str.split c (s +:+ String c t) = str.split c s ++ str.split c t.
Proof.
  induction s as [|a s IH]; rewrite ?sapp_cons; simpl.
  - by rewrite Ascii.eqb_refl.
  - destruct (Ascii.eqb a c); rewrite IH; [done |].
    pose proof (split_nonempty c s). by destruct (str.split c s).
Qed.

Lemma split_Forall_lacks c s : Forall (λ x, lacks c x = true) (str.split c s).
Proof.
  induction s as [|a s IH]; simpl; [by repeat constructor |].
  destruct (Ascii.eqb a c) eqn:Ha; [by constructor |].
  destruct (str.split c s) as [|h t]; [by repeat constructor; simpl; rewrite Ha |].
  inversion_clear IH. constructor; [| done]. simpl. by rewrite Ha.
Qed.

Lemma rfind_lacks c s : lacks c s = true → str.rfind c s = -1.
Proof.
  induction s as [|a s IH]; simpl; [done |].
  intros [Ha Hs]%andb_true_iff. apply negb_true_iff in Ha.
  by rewrite IH, Ha.
Qed.

Lemma rfind_app c s t :
  lacks c t = true → str.rfind c (s +:+ String c t) = Z.of_nat (String.length s).
Proof.
  intros Ht. induction s as [|a s IH]; rewrite ?sapp_cons; simpl str.rfind.
  - by rewrite rfind_lacks, Ascii.eqb_refl.
  - rewrite IH. destruct (Z.leb_spec 0 (Z.of_nat (String.length s))); simpl; lia.
Qed.

Lemma slice_to_app s t : str.slice_to (Z.of_nat (String.length s)) (s +:+ t) = s.
Proof.
  unfold str.slice_to. rewrite Nat2Z.id.
  induction s as [|a s IH]; rewrite ?sapp_cons; simpl.
  - by destruct t.
  - by rewrite IH.
Qed.

Lemma rstrip_snoc c s : str.rstrip c (s +:+ String c "") = str.rstrip c s.
Proof.
  induction s as [|a s IH]; rewrite ?sapp_cons; simpl.
  - by rewrite Ascii.eqb_refl.
  - by rewrite IH.
Qed.

Lemma rstrip_lacks c s : lacks c s = true → str.rstrip c s = s.
Proof.
  induction s as [|a s IH]; simpl; [done |].
  intros [Ha Hs]%andb_true_iff. apply negb_true_iff in Ha.
  rewrite IH, Ha by done. by destruct s.
Qed.

Lemma rstrip_app c s t :
  t ≠ "" → lacks c t = true → str.rstrip c (s +:+ t) = s +:+ t.
Proof.
  intros Hne Ht. induction s as [|a s IH]; rewrite ?sapp_cons; simpl.
  - by apply rstrip_lacks.
  - rewrite IH. destruct (s +:+ t) eqn:E; [| done].
    destruct s; [by rewrite sapp_nil_l in E | by rewrite sapp_cons in E].
Qed.

Lemma endswith_app c s t : t ≠ "" → str.endswith c (s +:+ t) = str.endswith c t.
Proof.
  intros Hne. induction s as [|a s IH]; rewrite ?sapp_cons; simpl; [done |].
  rewrite IH. destruct (s +:+ t) eqn:E; [| done].
  destruct s; [by rewrite sapp_nil_l in E | by rewrite sapp_cons in E].
Qed.

Lemma endswith_lacks c s : lacks c s = true → str.endswith c s = false.
Proof.
  induction s as [|a s IH]; simpl; [done |].
  intros [Ha Hs]%andb_true_iff. apply negb_true_iff in Ha.
  destruct s; [done | by apply IH].
Qed.

(** A string that ends with [c] is a string followed by [c]. *)
Lemma endswith_inv c s : str.endswith c s = true → ∃ s', s = s' +:+ String c "".
Proof.
  induction s as [|a s IH]; simpl; [done |].
  destruct s as [|b s].
  - intros ->%Ascii.eqb_eq. by exists "".
  - intros [s' Hs']%IH. exists (String a s'). by rewrite sapp_cons, <- Hs'.
Qed.

(** *** [dirname] *)

Lemma dirname_app s t :
  lacks path.sep t = true →
  path.dirname (s +:+ String path.sep t)
  = if only path.sep s then s +:+ "/" else str.rstrip path.sep s.
Proof.
  intros Ht. unfold path.dirname.
  rewrite rfind_app by done.
  replace (Z.of_nat (String.length s) + 1)
    with (Z.of_nat (String.length (s +:+ "/"))) by (rewrite sapp_length; simpl; lia).
  replace (s +:+ String path.sep t) with ((s +:+ "/") +:+ t)
    by (by rewrite sapp_assoc).
  rewrite slice_to_app, is_empty_app, andb_false_r, eqb_mul_only, only_app.
  simpl. rewrite andb_true_r.
  destruct (only path.sep s); simpl; [done | apply rstrip_snoc].
Qed.

Lemma join_snoc cs x :
  cs ≠ [] → str.join "/" (cs ++ [x]) = str.join "/" cs +:+ "/" +:+ x.
Proof.
  induction cs as [|y cs IH]; [done |]. intros _.
  destruct cs as [|z cs]; [done |].
  change (str.join "/" ((y :: z :: cs) ++ [x]))
    with (y +:+ "/" +:+ str.join "/" ((z :: cs) ++ [x])).
  rewrite IH by done.
  change (str.join "/" (y :: z :: cs)) with (y +:+ "/" +:+ str.join "/" (z :: cs)).
  by rewrite !sapp_assoc.
Qed.

Lemma only_join cs : cs ≠ [] → Forall comp_ok cs → only path.sep (str.join "/" cs) = false.
Proof.
  destruct cs as [|y cs]; [done |]. intros _ Hcs. inversion_clear Hcs as [|?? [Hy Hl] _].
  destruct y as [|a y]; [done |]. simpl in Hl.
  apply andb_true_iff in Hl as [Ha%negb_true_iff _].
  destruct cs; simpl; rewrite ?sapp_cons; simpl; by rewrite Ha.
Qed.

Lemma rstrip_path_of k cs :
  cs ≠ [] → Forall comp_ok cs → str.rstrip path.sep (path_of k cs) = path_of k cs.
Proof.
  intros Hne Hcs. unfold path_of.
  destruct (exists_last Hne) as (cs' & x & ->).
  apply Forall_app in Hcs as [_ Hx]. inversion_clear Hx as [|?? [Hx1 Hx2] _].
  destruct (decide (cs' = [])) as [->|Hcs'].
  - simpl. by apply rstrip_app.
  - rewrite join_snoc by done. rewrite <- !sapp_assoc. by apply rstrip_app.
Qed.

Lemma dirname_path_of k cs x :
  (1 ≤ k)%nat → Forall comp_ok cs → lacks path.sep x = true →
  path.dirname (path_of k (cs ++ [x])) = path_of k cs.
Proof.
  intros Hk Hcs Hx. unfold path_of.
  destruct (decide (cs = [])) as [->|Hne].
  - destruct k as [|k]; [lia |]. simpl app. simpl str.join.
    rewrite mul_snoc, sapp_assoc, sapp_cons, sapp_nil_l, sapp_nil_r.
    rewrite dirname_app by done. by rewrite only_mul.
  - rewrite join_snoc by done. rewrite <- sapp_assoc, sapp_cons, sapp_nil_l.
    rewrite dirname_app by done.
    rewrite only_app, only_join, andb_false_r by done.
    by apply rstrip_path_of.
Qed.

Lemma dirname_slashes k : path.dirname (str.mul path.sep k) = str.mul path.sep k.
Proof.
  destruct k as [|k]; [done |].
  rewrite mul_snoc. rewrite dirname_app by done. by rewrite only_mul.
Qed.

Lemma dirname_path_of_removelast k cs :
  (1 ≤ k)%nat → Forall comp_ok cs →
  path.dirname (path_of k cs) = path_of k (removelast cs).
Proof.
  intros Hk Hcs. destruct (decide (cs = [])) as [->|Hne].
  - unfold path_of. simpl. rewrite sapp_nil_r. apply dirname_slashes.
  - destruct (exists_last Hne) as (cs' & x & ->).
    apply Forall_app in Hcs as [Hcs' Hx]. inversion_clear Hx as [|?? [_ Hx2] _].
    rewrite removelast_last. by apply dirname_path_of.
Qed.

Lemma Forall_removelast {A} (P : A → Prop) (l : list A) :
  Forall P l → Forall P (removelast l).
Proof.
  induction 1 as [|x l Hx Hl IH]; simpl; [constructor |].
  destruct l; [constructor | by constructor].
Qed.

(** *** [normpath] and [abspath] *)

Lemma prefix_nil s : String.prefix "" s = true.
Proof. by destruct s. Qed.

Lemma prefix_cons a p b s :
  String.prefix (String a p) (String b s) = Ascii.eqb b a && String.prefix p s.
Proof.
  simpl. destruct (ascii_dec a b) as [->|Hab].
  - by rewrite Ascii.eqb_refl.
  - by apply not_eq_sym, Ascii.eqb_neq in Hab as ->.
Qed.

Lemma startswith_sep s :
  str.startswith "/" s
  = match s with String a _ => Ascii.eqb a path.sep | EmptyString => false end.
Proof.
  unfold str.startswith. destruct s as [|a s]; [done |].
  by rewrite prefix_cons, prefix_nil, andb_true_r.
Qed.

Lemma leading_app c s t :
  leading c (s +:+ t) = if only c s then (leading c s + leading c t)%nat else leading c s.
Proof.
  induction s as [|a s IH]; [done |]. rewrite sapp_cons; simpl.
  destruct (Ascii.eqb a c); simpl; [| done]. rewrite IH. by destruct (only c s).
Qed.

Lemma initial_slashes_leading s :
  path.initial_slashes s
  = match leading path.sep s with O => O | 2%nat => 2%nat | _ => 1%nat end.
Proof.
  unfold path.initial_slashes, str.startswith, path.sep.
  destruct s as [|a [|b [|d s]]];
    rewrite ?prefix_cons, ?prefix_nil; simpl;
    repeat match goal with |- context [Ascii.eqb ?x "/"] =>
             destruct (Ascii.eqb x "/"); simpl end; done.
Qed.

Lemma only_endswith c s : only c s = true → s ≠ "" → str.endswith c s = true.
Proof.
  induction s as [|a s IH]; [done |]. simpl.
  intros [Ha Hs]%andb_true_iff _. destruct s; [done | by apply IH].
Qed.

Lemma isabs_initial_slashes s : path.isabs s = true → (1 ≤ path.initial_slashes s)%nat.
Proof.
  unfold path.isabs, path.initial_slashes. intros ->.
  destruct (_ && _); lia.
Qed.

Lemma norm_step_ok k acc x :
  Forall comp_ok acc → lacks path.sep x = true → Forall comp_ok (path.norm_step k acc x).
Proof.
  intros Hacc Hx. unfold path.norm_step.
  destruct (String.eqb_spec x "") as [->|Hne]; simpl; [done |].
  repeat case_match; try done.
  - apply Forall_app; split; [done |]. by repeat constructor.
  - by apply Forall_removelast.
Qed.

Lemma foldl_norm_step_ok k l acc :
  Forall comp_ok acc → Forall (λ x, lacks path.sep x = true) l →
  Forall comp_ok (foldl (path.norm_step k) acc l).
Proof.
  revert acc; induction l as [|x l IH]; intros acc Hacc Hl; simpl; [done |].
  inversion_clear Hl. apply IH; [by apply norm_step_ok | done].
Qed.

Lemma norm_comps_ok s : Forall comp_ok (norm_comps s).
Proof. apply foldl_norm_step_ok; [constructor | apply split_Forall_lacks]. Qed.

Lemma is_empty_path_of k cs : (1 ≤ k)%nat → str.is_empty (path_of k cs) = false.
Proof. destruct k; [lia | done]. Qed.

Lemma normpath_abs s :
  path.isabs s = true → path.normpath s = path_of (path.initial_slashes s) (norm_comps s).
Proof.
  intros Habs. pose proof (isabs_initial_slashes s Habs) as Hk.
  unfold path.normpath, path_of, norm_comps.
  destruct s as [|a s]; [done |]. simpl str.is_empty. cbv iota zeta.
  destruct (str.is_empty (_ +:+ _)) eqn:E; [| done].
  rewrite is_empty_app in E. destruct (path.initial_slashes (String a s)); [lia | done].
Qed.

Lemma normpath_nonempty s : str.is_empty (path.normpath s) = false.
Proof.
  unfold path.normpath. destruct (str.is_empty s); [done |]. cbv zeta.
  by destruct (str.is_empty (_ +:+ _)) eqn:E.
Qed.

Lemma isabs_anchored cwd p : path.isabs cwd = true → path.isabs (anchored cwd p) = true.
Proof.
  unfold anchored, path.join2, path.isabs. intros Hcwd.
  destruct (str.startswith "/" p) eqn:Hp; [done |].
  rewrite startswith_sep in Hcwd. destruct cwd as [|a cwd]; [done |].
  destruct (_ || _); by rewrite sapp_cons, startswith_sep.
Qed.

(** An absolute path is its leading slashes and its components. *)
Lemma abspath_path_of cwd p :
  path.isabs cwd = true →
  path.abspath cwd p
  = path_of (path.initial_slashes (anchored cwd p)) (norm_comps (anchored cwd p)).
Proof. intros Hcwd. apply normpath_abs. by apply isabs_anchored. Qed.

Lemma isabs_path_of k cs : (1 ≤ k)%nat → path.isabs (path_of k cs) = true.
Proof.
  destruct k; [lia |]. intros _. unfold path.isabs, path_of. simpl str.mul.
  by rewrite sapp_cons, startswith_sep.
Qed.

(** *** Paths that end in ordinary components *)

Lemma proper_comp_ok l : Forall proper l → Forall comp_ok l.
Proof. intros H. eapply Forall_impl; [done |]. by intros x [? _]. Qed.

Lemma comp_ok_not_abs x : comp_ok x → str.startswith "/" x = false.
Proof.
  intros [Hne Hl]. rewrite startswith_sep. destruct x as [|a x]; [done |].
  simpl in Hl. by apply andb_true_iff in Hl as [?%negb_true_iff _].
Qed.

Lemma norm_step_proper k acc x : proper x → path.norm_step k acc x = acc ++ [x].
Proof.
  intros ([H1 _] & H2 & H3). unfold path.norm_step.
  apply String.eqb_neq in H1 as ->, H2 as ->, H3 as ->. done.
Qed.

Lemma foldl_norm_step_proper k l acc :
  Forall proper l → foldl (path.norm_step k) acc l = acc ++ l.
Proof.
  revert acc; induction l as [|x l IH]; intros acc Hl; simpl.
  - by rewrite app_nil_r.
  - inversion_clear Hl. rewrite norm_step_proper, IH by done.
    by rewrite <- app_assoc.
Qed.

Lemma split_join l :
  l ≠ [] → Forall comp_ok l → str.split path.sep (str.join "/" l) = l.
Proof.
  induction l as [|x l IH]; [done |]. intros _ Hl.
  inversion_clear Hl as [|?? [_ Hx] Hl'].
  destruct l as [|y l]; [by apply split_lacks |].
  change (str.join "/" (x :: y :: l)) with (x +:+ String path.sep (str.join "/" (y :: l))).
  by rewrite split_app, split_lacks, IH.
Qed.

Lemma leading_join l :
  l ≠ [] → Forall comp_ok l → leading path.sep (str.join "/" l) = O.
Proof.
  destruct l as [|x l]; [done |]. intros _ Hl.
  inversion_clear Hl as [|?? [Hne Hx] _].
  destruct x as [|a x]; [done |]. simpl in Hx.
  apply andb_true_iff in Hx as [Ha%negb_true_iff _].
  destruct l; simpl; rewrite ?sapp_cons; simpl; by rewrite Ha.
Qed.

Lemma join_not_abs l :
  l ≠ [] → Forall comp_ok l → str.startswith "/" (str.join "/" l) = false.
Proof.
  intros Hne Hl. rewrite startswith_sep.
  pose proof (leading_join l Hne Hl) as Hlead.
  destruct (str.join "/" l) as [|a j]; [done |]. simpl in Hlead.
  by destruct (Ascii.eqb a path.sep).
Qed.

Lemma join_ends l :
  l ≠ [] → Forall comp_ok l → ∃ s x, str.join "/" l = s +:+ x ∧ comp_ok x.
Proof.
  intros Hne Hl. destruct (exists_last Hne) as (l' & x & ->).
  apply Forall_app in Hl as [_ Hx]. inversion_clear Hx.
  destruct (decide (l' = [])) as [->|Hl'].
  - by exists "", x.
  - exists (str.join "/" l' +:+ "/"), x. by rewrite join_snoc, sapp_assoc.
Qed.

Lemma normpath_extend s l :
  path.isabs s = true → l ≠ [] → Forall proper l →
  path.normpath
    (s +:+ (if str.endswith path.sep s then "" else "/") +:+ str.join "/" l)
  = path_of (path.initial_slashes s) (norm_comps s ++ l).
Proof.
  intros Habs Hne Hl. pose proof (proper_comp_ok _ Hl) as Hok.
  assert (s ≠ "") as Hs by (by intros ->).
  set (s' := s +:+ _ +:+ _).
  assert (path.isabs s' = true) as Habs'.
  { unfold path.isabs in *. rewrite startswith_sep in *. subst s'.
    destruct s as [|a s]; [done |]. by rewrite sapp_cons. }
  assert (path.initial_slashes s' = path.initial_slashes s) as Hk.
  { rewrite !initial_slashes_leading. subst s'.
    rewrite leading_app. destruct (only path.sep s) eqn:Ho; [| done].
    rewrite (only_endswith _ _ Ho Hs), sapp_nil_l, leading_join by done.
    by rewrite Nat.add_0_r. }
  rewrite normpath_abs by done. rewrite Hk. f_equal.
  unfold norm_comps. rewrite Hk. subst s'.
  destruct (str.endswith path.sep s) eqn:He.
  - apply endswith_inv in He as [s0 ->].
    rewrite sapp_nil_l, sapp_assoc, sapp_cons, sapp_nil_l.
    rewrite !split_app, !foldl_app, split_join by done.
    simpl. by rewrite foldl_norm_step_proper.
  - rewrite sapp_cons, sapp_nil_l, split_app, foldl_app, split_join by done.
    by rewrite foldl_norm_step_proper.
Qed.

Lemma join2_rel cwd p :
  path.isabs cwd = true → str.startswith "/" p = false →
  path.join2 cwd p = cwd +:+ (if str.endswith path.sep cwd then "" else "/") +:+ p.
Proof.
  intros Hcwd Hp. unfold path.join2. rewrite Hp.
  destruct cwd as [|a cwd]; [done |]. simpl str.is_empty. rewrite orb_false_l.
  by destruct (str.endswith _ _).
Qed.

Lemma path_join_proper dir l :
  l ≠ [] → Forall proper l →
  path.join dir l
  = dir +:+ (if str.is_empty dir || str.endswith path.sep dir then "" else "/")
        +:+ str.join "/" l.
Proof.
  induction l as [|x l IH] using rev_ind; [done |]. intros _ Hl.
  apply Forall_app in Hl as [Hl Hx]. inversion_clear Hx as [|?? Hx' _].
  unfold path.join in *. rewrite foldl_app. simpl.
  destruct (decide (l = [])) as [->|Hne].
  - simpl. unfold path.join2. rewrite comp_ok_not_abs by apply Hx'.
    by destruct (_ || _).
  - rewrite IH by done. rewrite join_snoc by done.
    destruct (join_ends l Hne (proper_comp_ok _ Hl)) as (s & y & -> & Hy1 & Hy2).
    unfold path.join2. rewrite comp_ok_not_abs by apply Hx'.
    rewrite <- !sapp_assoc, is_empty_app, endswith_app by done.
    rewrite (endswith_lacks _ y) by done.
    destruct y; [done |]. simpl str.is_empty. by rewrite andb_false_r.
Qed.

(** [abspath] of a directory joined with ordinary components is [abspath] of
    the directory followed by these components. *)
Lemma abspath_join cwd dir l :
  path.isabs cwd = true → l ≠ [] → Forall proper l →
  path.abspath cwd (path.join dir l)
  = path_of (path.initial_slashes (anchored cwd dir))
            (norm_comps (anchored cwd dir) ++ l).
Proof.
  intros Hcwd Hne Hl. rewrite <- normpath_extend by (by try apply isabs_anchored).
  unfold path.abspath. f_equal. rewrite path_join_proper by done.
  assert (str.startswith "/" (str.join "/" l) = false) as HJ.
  { destruct (join_ends l Hne (proper_comp_ok _ Hl)) as (s & y & E & Hy).
    rewrite startswith_sep.
    pose proof (leading_join l Hne (proper_comp_ok _ Hl)) as Hlead.
    destruct (str.join "/" l) as [|a j]; [done |]. simpl in Hlead.
    by destruct (Ascii.eqb a path.sep). }
  unfold anchored, path.isabs.
  destruct dir as [|a dir].
  - simpl str.is_empty. rewrite orb_true_l, !sapp_nil_l. rewrite HJ.
    change (str.startswith "/" "") with false. cbv iota.
    rewrite !join2_rel by done.
    rewrite sapp_nil_r.
    destruct (str.endswith path.sep cwd) eqn:He.
    + by rewrite sapp_nil_r, He, !sapp_nil_l.
    + rewrite endswith_app by done. simpl str.endswith. cbv iota.
      by rewrite sapp_assoc, !sapp_nil_l.
  - simpl str.is_empty. rewrite orb_false_l, !sapp_cons, !startswith_sep.
    destruct (Ascii.eqb a path.sep) eqn:Ha; [done |].
    rewrite !join2_rel by (try done; by rewrite startswith_sep).
    rewrite <- !sapp_assoc. rewrite (endswith_app _ _ (String a dir)) by done.
    by rewrite !sapp_assoc, !sapp_cons, ?sapp_assoc.
Qed.

(** *** Five levels up *)

Lemma removelast_drop_last {A} (l : list A) : removelast l = drop_last 1 l.
Proof. unfold drop_last. rewrite removelast_firstn_len. f_equal. lia. Qed.

Lemma drop_last_drop_last {A} n m (l : list A) :
  drop_last n (drop_last m l) = drop_last (m + n) l.
Proof.
  unfold drop_last. rewrite length_take, take_take. f_equal. lia.
Qed.

Lemma drop_last_app {A} (l l' : list A) : drop_last (length l') (l ++ l') = l.
Proof.
  unfold drop_last. rewrite length_app.
  replace (length l + length l' - length l')%nat with (length l) by lia.
  by rewrite take_app_length.
Qed.

Lemma Forall_drop_last {A} (P : A → Prop) n (l : list A) :
  Forall P l → Forall P (drop_last n l).
Proof. apply Forall_take. Qed.

Lemma dirname_drop_last k cs :
  (1 ≤ k)%nat → Forall comp_ok cs →
  path.dirname (path_of k cs) = path_of k (drop_last 1 cs).
Proof.
  intros. rewrite <- removelast_drop_last. by apply dirname_path_of_removelast.
Qed.

(** The five [dirname] of line 58 remove the last five components, and
    stop at the leading slashes. *)
Lemma RootResolver_path_of k cs :
  (1 ≤ k)%nat → Forall comp_ok cs →
  RootResolver (path_of k cs) = path_of k (drop_last 5 cs).
Proof.
  intros Hk Hcs. unfold RootResolver.
  do 5 (rewrite dirname_drop_last; [| done | by repeat apply Forall_drop_last]).
  by rewrite !drop_last_drop_last.
Qed.

End path_facts.

(** ** The manifest relative to its root *)

Section relpath_facts.
Implicit Types (s : string) (cs l : list string).

Lemma last_elem_of {A} (l : list A) (x : A) : last l = Some x → x ∈ l.
Proof.
  induction l as [|y l IH]; [done |]. destruct l as [|z l].
  - intros [= ->]. by left.
  - intros H. right. by apply IH.
Qed.

(** Under leading slashes [normpath] keeps ordinary components only. *)
Lemma foldl_norm_step_keeps_proper k l acc :
  (1 ≤ k)%nat → Forall proper acc → Forall (λ x, lacks path.sep x = true) l →
  Forall proper (foldl (path.norm_step k) acc l).
Proof.
  intros Hk. revert acc; induction l as [|x l IH]; intros acc Hacc Hl; simpl; [done |].
  inversion_clear Hl as [|?? Hx Hl']. apply IH; [| done].
  unfold path.norm_step.
  destruct (String.eqb_spec x "") as [->|Hx1]; simpl; [done |].
  destruct (String.eqb_spec x ".") as [->|Hx2]; simpl; [done |].
  destruct (String.eqb_spec x "..") as [->|Hx3]; simpl.
  - destruct k; [lia |]. simpl.
    case_bool_decide as Hlast.
    + apply last_elem_of in Hlast. eapply Forall_forall in Hacc; [| done].
      by destruct Hacc as (_ & _ & []).
    + case_bool_decide; [by apply Forall_removelast | done].
  - apply Forall_app. split; [done |]. by repeat constructor.
Qed.

Lemma norm_comps_proper s : path.isabs s = true → Forall proper (norm_comps s).
Proof.
  intros Habs. apply foldl_norm_step_keeps_proper;
    [by apply isabs_initial_slashes | constructor | apply split_Forall_lacks].
Qed.

Lemma initial_slashes_cases s :
  path.isabs s = true → path.initial_slashes s = 1%nat ∨ path.initial_slashes s = 2%nat.
Proof.
  unfold path.isabs, path.initial_slashes. intros ->. destruct (_ && _); auto.
Qed.

Lemma leading_mul c k : leading c (str.mul c k) = k.
Proof. induction k; simpl; [done | by rewrite Ascii.eqb_refl, IHk]. Qed.

Lemma split_mul k s :
  str.split path.sep (str.mul path.sep k +:+ s) = replicate k "" ++ str.split path.sep s.
Proof.
  induction k as [|k IH]; [done |].
  cbn [str.mul]. rewrite sapp_cons. cbn [str.split].
  by rewrite Ascii.eqb_refl, IH.
Qed.

Lemma foldl_norm_step_empty k n acc :
  foldl (path.norm_step k) acc (replicate n "") = acc.
Proof.
  revert acc; induction n as [|n IH]; intros acc; [done |].
  cbn [replicate foldl]. by rewrite IH.
Qed.

Lemma norm_comps_path_of k cs :
  Forall proper cs →
  foldl (path.norm_step k) [] (str.split path.sep (path_of k cs)) = cs.
Proof.
  intros Hcs. unfold path_of. rewrite split_mul, foldl_app, foldl_norm_step_empty.
  destruct (decide (cs = [])) as [->|Hne]; [done |].
  rewrite split_join by (done || by apply proper_comp_ok).
  by rewrite foldl_norm_step_proper.
Qed.

Lemma initial_slashes_path_of k cs :
  (k = 1 ∨ k = 2)%nat → Forall comp_ok cs → path.initial_slashes (path_of k cs) = k.
Proof.
  intros Hk Hcs. rewrite initial_slashes_leading. unfold path_of.
  rewrite leading_app, only_mul, leading_mul.
  destruct (decide (cs = [])) as [->|Hne].
  - simpl. rewrite Nat.add_0_r. by destruct Hk as [-> | ->].
  - rewrite leading_join, Nat.add_0_r by done. by destruct Hk as [-> | ->].
Qed.

(** A path made of one or two slashes and ordinary components is
    normalised. *)
Lemma normpath_path_of k cs :
  (k = 1 ∨ k = 2)%nat → Forall proper cs → path.normpath (path_of k cs) = path_of k cs.
Proof.
  intros Hk Hcs. pose proof (proper_comp_ok _ Hcs) as Hok.
  rewrite normpath_abs by (apply isabs_path_of; lia).
  unfold norm_comps. rewrite initial_slashes_path_of by done.
  by rewrite norm_comps_path_of.
Qed.

Lemma abspath_path_of_id cwd k cs :
  (k = 1 ∨ k = 2)%nat → Forall proper cs → path.abspath cwd (path_of k cs) = path_of k cs.
Proof.
  intros Hk Hcs. unfold path.abspath.
  rewrite isabs_path_of by lia. by apply normpath_path_of.
Qed.

Lemma filter_nonempty_replicate n :
  filter (λ x : string, x ≠ "") (replicate n "") = [].
Proof. induction n; [done |]. simpl. by rewrite filter_cons_False by naive_solver. Qed.

Lemma filter_nonempty_comps cs :
  Forall comp_ok cs → filter (λ x : string, x ≠ "") cs = cs.
Proof.
  induction 1 as [|x cs [Hx _] _ IH]; [done |].
  by rewrite filter_cons_True, IH.
Qed.

Lemma nonempty_comps_path_of k cs :
  Forall comp_ok cs → path.nonempty_comps (path_of k cs) = cs.
Proof.
  intros Hcs. unfold path.nonempty_comps, path_of.
  rewrite split_mul, filter_app, filter_nonempty_replicate.
  destruct (decide (cs = [])) as [->|Hne]; [done |].
  rewrite split_join by done. by apply filter_nonempty_comps.
Qed.

Lemma commonprefix_len_app l l' : path.commonprefix_len l (l ++ l') = length l.
Proof. induction l as [|x l IH]; [by destruct l' |]. simpl. by rewrite String.eqb_refl, IH. Qed.

Lemma join_cons x l : l ≠ [] → str.join "/" (x :: l) = x +:+ "/" +:+ str.join "/" l.
Proof. by destruct l. Qed.

Lemma join_app l l' :
  l ≠ [] → l' ≠ [] →
  str.join "/" (l ++ l') = str.join "/" l +:+ "/" +:+ str.join "/" l'.
Proof.
  intros Hl Hl'. induction l as [|x l IH]; [done |].
  destruct (decide (l = [])) as [->|Hne].
  - simpl app. by rewrite join_cons.
  - rewrite <- app_comm_cons, !join_cons by (done || by destruct l).
    rewrite IH by done. by rewrite !sapp_assoc.
Qed.

(** [posixpath.join] of ordinary components is the components separated by
    slashes. *)
Lemma path_join_comps x l : Forall proper (x :: l) → path.join x l = str.join "/" (x :: l).
Proof.
  intros Hl. inversion_clear Hl as [|?? Hx Hl'].
  destruct (decide (l = [])) as [->|Hne]; [done |].
  rewrite path_join_proper, join_cons by done.
  destruct Hx as ([Hx1 Hx2] & _). rewrite endswith_lacks by done.
  by destruct x.
Qed.

(** The manifest relative to its root is its last five components, and
    joining the root with them gives the path of the manifest back. *)
Lemma relpath_RootResolver cwd manifest :
  path.isabs cwd = true →
  ∃ k cs,
    (1 ≤ k)%nat ∧ Forall proper cs ∧
    path.abspath cwd manifest = path_of k cs ∧
    RootResolver (path_of k cs) = path_of k (drop_last 5 cs) ∧
    path.relpath cwd (path_of k cs) (path_of k (drop_last 5 cs))
    = Ok (match drop (length cs - 5) cs with
          | [] => path.curdir
          | l => str.join "/" l
          end) ∧
    (cs ≠ [] →
     path.join (path_of k (drop_last 5 cs)) [str.join "/" (drop (length cs - 5) cs)]
     = path_of k cs).
Proof.
  intros Hcwd.
  pose proof (isabs_anchored cwd manifest Hcwd) as Habs.
  exists (path.initial_slashes (anchored cwd manifest)), (norm_comps (anchored cwd manifest)).
  set (k := path.initial_slashes _). set (cs := norm_comps _).
  assert (k = 1 ∨ k = 2)%nat as Hk by by apply initial_slashes_cases.
  assert (Forall proper cs) as Hcs by by apply norm_comps_proper.
  pose proof (proper_comp_ok _ Hcs) as Hok.
  assert (Forall proper (drop_last 5 cs)) as Hcs' by by apply Forall_drop_last.
  assert (path.abspath cwd manifest = path_of k cs) as Heq by by apply abspath_path_of.
  clearbody k cs.
  split_and!; [lia | done | done | apply RootResolver_path_of; [lia | done] | |].
  - unfold path.relpath. rewrite is_empty_path_of by lia.
    rewrite !abspath_path_of_id by done.
    rewrite !nonempty_comps_path_of by (done || by apply proper_comp_ok).
    unfold drop_last.
    assert (Forall proper (drop (length cs - 5) cs)) as Hd by by apply Forall_drop.
    pose proof (take_drop (length cs - 5) cs) as Hsplit.
    set (t := take (length cs - 5) cs) in *. set (d := drop (length cs - 5) cs) in *.
    rewrite <- Hsplit.
    rewrite commonprefix_len_app, Nat.sub_diag. simpl replicate. rewrite app_nil_l.
    rewrite drop_app_length.
    destruct d as [|a l]; [done |].
    f_equal. by apply path_join_comps.
  - intros Hne. unfold drop_last.
    set (n := (length cs - 5)%nat).
    assert (drop n cs ≠ []) as Hdrop.
    { intros Hd. apply (f_equal length) in Hd. rewrite length_drop in Hd.
      unfold n in Hd. destruct cs; [done | simpl in Hd; lia]. }
    assert (Forall comp_ok (drop n cs)) as Hokd by by apply Forall_drop.
    assert (Forall comp_ok (take n cs)) as Hokt by by apply Forall_take.
    unfold path.join. simpl foldl. unfold path.join2.
    rewrite join_not_abs by done. rewrite is_empty_path_of by lia. simpl orb.
    unfold path_of. destruct (decide (take n cs = [])) as [Ht|Ht].
    + rewrite Ht. simpl str.join. rewrite sapp_nil_r.
      rewrite only_endswith by (by rewrite ?only_mul; destruct k; [lia |]).
      f_equal. f_equal. rewrite <- (take_drop n cs) at 2. by rewrite Ht.
    + destruct (join_ends _ Ht Hokt) as (s & y & Hs & Hy1 & Hy2).
      assert (str.endswith path.sep
                (str.mul path.sep k +:+ str.join "/" (take n cs)) = false) as ->.
      { rewrite Hs, <- sapp_assoc, endswith_app by done. by apply endswith_lacks. }
      rewrite sapp_assoc. f_equal.
      rewrite <- join_app by done. by rewrite take_drop.
Qed.

End relpath_facts.

(** ** The file-set builder *)

Section builder_facts.
Context (w : world).
Implicit Types (manifest root : string) (files : list string).

Lemma check_files_Ok root files :
  check_files w root files = Ok () ↔ Forall (present w root) files.
Proof.
  unfold present. induction files as [|f files IH]; cbn [check_files].
  - split; [constructor | done].
  - destruct (isfile w (path.join root [f])) eqn:Hf.
    + rewrite IH. split; [by constructor | by inversion 1].
    + split; [done | inversion 1; congruence].
Qed.

(** A failed check names the first entry that is not a regular file. *)
Lemma check_files_Raise root files e :
  check_files w root files = Raise e ↔
  ∃ pre f post,
    files = pre ++ f :: post ∧ Forall (present w root) pre ∧
    isfile w (path.join root [f]) = false ∧
    e = KnownError ("File not found: " +:+ path.join root [f]).
Proof.
  unfold present. induction files as [|f files IH]; cbn [check_files].
  - split; [done | by intros ([|??] & ? & ? & ? & _)].
  - destruct (isfile w (path.join root [f])) eqn:Hf.
    + rewrite IH. split.
      * intros (pre & g & post & -> & Hpre & Hg & ->).
        exists (f :: pre), g, post. repeat split; [by constructor | done].
      * intros ([|f' pre] & g & post & Heq & Hpre & Hg & ->);
          injection Heq as -> ->; [congruence |].
        inversion_clear Hpre. by exists pre, g, post.
    + split.
      * intros [= <-]. by exists [], f, files.
      * intros ([|f' pre] & g & post & Heq & Hpre & Hg & ->);
          injection Heq as -> ->; [done |].
        inversion_clear Hpre. congruence.
Qed.

Lemma check_files_unit root files : check_files w root files = Ok () ∨
  ∃ e, check_files w root files = Raise e.
Proof. destruct (check_files w root files) as [[]|e]; eauto. Qed.

(** [relpath] does not raise on the result of [abspath]. *)
Lemma relpath_abspath cwd p start :
  ∃ rel, path.relpath cwd (path.abspath cwd p) start = Ok rel.
Proof.
  unfold path.relpath, path.abspath at 1. rewrite normpath_nonempty.
  destruct (_ ++ _); eauto.
Qed.

Lemma foldl_add_shift (l : list Z) (a : Z) : foldl Z.add a l = a + foldl Z.add 0 l.
Proof.
  revert a; induction l as [|x l IH]; intros a; simpl; [lia |].
  rewrite (IH (a + x)), (IH (0 + x)). lia.
Qed.

Lemma sum_Z_layers layers : sum_Z (map ManifestLayer.size layers) = layers_size layers.
Proof.
  unfold sum_Z. induction layers as [|x l IH]; simpl; [done |].
  rewrite foldl_add_shift, IH. lia.
Qed.

(** [get_ollama_manifest_data] once the manifest is decoded: the check of
    the file list, then the record. *)
Lemma get_ollama_manifest_data_decoded manifest m :
  let manifest_absolute_path := path.abspath (getcwd w) manifest in
  let root := RootResolver manifest_absolute_path in
  read_ollama_manifest w manifest_absolute_path = Ok m →
  ∃ rel,
    path.relpath (getcwd w) manifest_absolute_path root = Ok rel ∧
    get_ollama_manifest_data w manifest
    = (check_files w root (rel :: blob_files m) ≫= λ _,
       Ok (ManifestData.mk root (rel :: blob_files m)
             (layers_size (Manifest.layers m)
              + ManifestLayer.size (Manifest.config m)))).
Proof.
  cbv zeta. intros Hread.
  destruct (relpath_abspath (getcwd w) manifest
              (RootResolver (path.abspath (getcwd w) manifest))) as [rel Hrel].
  exists rel. split; [done |].
  unfold get_ollama_manifest_data. rewrite Hread. cbn [mbind result_bind].
  rewrite Hrel. cbn [mbind result_bind].
  rewrite sum_Z_layers. unfold blob_files. cbn [map]. by rewrite map_map.
Qed.

(** A returned record carries the root of line 58. *)
Lemma get_ollama_manifest_data_root manifest fs :
  get_ollama_manifest_data w manifest = Ok fs →
  ManifestData.root fs = RootResolver (path.abspath (getcwd w) manifest).
Proof.
  unfold get_ollama_manifest_data.
  destruct (read_ollama_manifest _ _) as [m|]; result_simpl; [| done].
  destruct (path.relpath _ _ _) as [rel|]; result_simpl; [| done].
  destruct (check_files _ _ _); result_simpl; [| done]. by intros [= <-].
Qed.

(** A returned record was checked. *)
Lemma get_ollama_manifest_data_present manifest fs :
  get_ollama_manifest_data w manifest = Ok fs →
  Forall (present w (ManifestData.root fs)) (ManifestData.files fs).
Proof.
  unfold get_ollama_manifest_data.
  destruct (read_ollama_manifest _ _) as [m|]; result_simpl; [| done].
  destruct (path.relpath _ _ _) as [rel|]; result_simpl; [| done].
  destruct (check_files _ _ _) as [[]|] eqn:Hc; result_simpl; [| done].
  intros [= <-]. by apply check_files_Ok.
Qed.

Lemma get_ollama_manifests_data_Ok manifests data :
  get_ollama_manifests_data w manifests = Ok data ↔
  Forall2 (λ manifest fs, get_ollama_manifest_data w manifest = Ok fs) manifests data.
Proof.
  revert data; induction manifests as [|manifest manifests IH]; intros data;
    cbn [get_ollama_manifests_data].
  - split; [intros [= <-]; constructor | by inversion 1].
  - destruct (get_ollama_manifest_data w manifest) as [d|e] eqn:Hd; result_simpl.
    + destruct (get_ollama_manifests_data w manifests) as [ds|e] eqn:Hds; result_simpl.
      * split.
        -- intros [= <-]. constructor; [done | by apply IH].
        -- inversion 1 as [|???? H1 H2]; subst. apply IH in H2. congruence.
      * split; [done |].
        inversion 1 as [|???? H1 H2]; subst. by apply IH in H2.
    + split; [done | inversion 1; congruence].
Qed.

(** One manifest that cannot be built makes the whole list fail. *)
Lemma get_ollama_manifests_data_Raise manifests manifest e :
  manifest ∈ manifests → get_ollama_manifest_data w manifest = Raise e →
  ∃ e', get_ollama_manifests_data w manifests = Raise e'.
Proof.
  intros Hin Hm. induction manifests as [|x manifests IH]; [by inversion Hin |].
  cbn [get_ollama_manifests_data].
  destruct (get_ollama_manifest_data w x) as [d|e1] eqn:Hx; result_simpl; [| eauto].
  apply elem_of_cons in Hin as [->|Hin]; [congruence |].
  destruct (IH Hin) as [e' ->]. result_simpl. eauto.
Qed.

(** The exception of the first manifest that cannot be built. *)
Lemma get_ollama_manifests_data_first_failure pre manifest post e :
  Forall (λ x, ∃ fs, get_ollama_manifest_data w x = Ok fs) pre →
  get_ollama_manifest_data w manifest = Raise e →
  get_ollama_manifests_data w (pre ++ manifest :: post) = Raise e.
Proof.
  intros Hpre He.
  induction Hpre as [|x pre [fs Hx] _ IH];
    cbn [app get_ollama_manifests_data]; [by rewrite He |].
  rewrite Hx. result_simpl. by rewrite IH.
Qed.

(** The four commands stop where the list of file sets cannot be built. *)
Lemma commands_raise manifests destination tar_path zip_path e :
  get_ollama_manifests_data w manifests = Raise e →
  list_command w manifests = ([], Raise e)
  ∧ copy_command w manifests destination = ([], Raise e)
  ∧ tar_command w manifests tar_path = ([], Raise e)
  ∧ zip_command w manifests zip_path = ([], Raise e).
Proof.
  intros Hdata. unfold list_command, copy_command, tar_command, zip_command.
  by rewrite Hdata.
Qed.

(** A command that returns has built every file set. *)
Lemma command_returns_built {A} manifests (k : list ManifestData.t → io A) t a :
  (lift (get_ollama_manifests_data w manifests) ≫= k) = (t, Ok a) →
  ∃ data, get_ollama_manifests_data w manifests = Ok data.
Proof.
  destruct (get_ollama_manifests_data w manifests) as [data|e]; [eauto | done].
Qed.

End builder_facts.

(** The root of a file set is absolute, and so is every path the check
    tests. *)
Lemma isabs_RootResolver cwd manifest :
  path.isabs cwd = true → path.isabs (RootResolver (path.abspath cwd manifest)) = true.
Proof.
  intros Hcwd. rewrite abspath_path_of by done.
  pose proof (isabs_initial_slashes _ (isabs_anchored cwd manifest Hcwd)).
  rewrite RootResolver_path_of by (done || apply norm_comps_ok).
  by apply isabs_path_of.
Qed.

Lemma isabs_join root f : path.isabs root = true → path.isabs (path.join root [f]) = true.
Proof.
  unfold path.isabs, path.join, path.join2. simpl. intros Hroot.
  destruct (str.startswith "/" f) eqn:Hf; [done |].
  rewrite startswith_sep in Hroot. destruct root as [|a root]; [done |].
  destruct (_ || _); by rewrite sapp_cons, startswith_sep.
Qed.

(** * The claims *)

(** C1.  For a manifest that decodes to a record [m] with [n] layers,
    [get_ollama_manifest_data] either raises because an entry of the file
    list is missing, or returns a record whose [files] has length [2 + n]:
    first the path of the manifest relative to the inferred root, then the
    blob path of the config digest, then the blob paths of the layers in
    the order of the manifest.  The relative path is made of the last five
    components of the absolute path of the manifest, and joined with the
    root it is that absolute path again. *)
Theorem build_files_layout (w : world) (manifest : string) (m : Manifest.t) :
  let manifest_absolute_path := path.abspath (getcwd w) manifest in
  let root := RootResolver manifest_absolute_path in
  path.isabs (getcwd w) = true →
  read_ollama_manifest w manifest_absolute_path = Ok m →
  ∃ rel,
    path.relpath (getcwd w) manifest_absolute_path root = Ok rel ∧
    (∃ k cs,
        (1 ≤ k)%nat ∧ Forall proper cs ∧ manifest_absolute_path = path_of k cs ∧
        rel = match drop (length cs - 5) cs with
              | [] => path.curdir
              | l => str.join "/" l
              end ∧
        (cs ≠ [] → path.join root [rel] = manifest_absolute_path)) ∧
    match get_ollama_manifest_data w manifest with
    | Ok fs =>
        ManifestData.files fs
        = rel :: toBlobPath (ManifestLayer.digest (Manifest.config m))
              :: map (λ layer, toBlobPath (ManifestLayer.digest layer)) (Manifest.layers m)
        ∧ length (ManifestData.files fs) = (2 + length (Manifest.layers m))%nat
    | Raise e =>
        ∃ f, f ∈ rel :: blob_files m ∧ isfile w (path.join root [f]) = false
    end.
Proof.
  intros abs root Hcwd Hread.
  destruct (get_ollama_manifest_data_decoded w manifest m Hread) as (rel & Hrel & ->).
  exists rel. fold abs root in Hrel |- *. split_and!; [done | |].
  - destruct (relpath_RootResolver (getcwd w) manifest Hcwd)
      as (k & cs & Hk & Hcs & Habs & Hroot & Hrel' & Hjoin).
    fold abs in Habs. exists k, cs. split_and!; [done | done | done | |].
    + unfold root in Hrel. rewrite Habs, Hroot, Hrel' in Hrel. by injection Hrel.
    + intros Hne. specialize (Hjoin Hne). unfold root. rewrite Habs, Hroot.
      unfold root in Hrel. rewrite Habs, Hroot, Hrel' in Hrel.
      injection Hrel as <-.
      destruct (drop (length cs - 5) cs) eqn:Hd; [| done].
      apply (f_equal length) in Hd. rewrite length_drop in Hd.
      destruct cs; [done | simpl in Hd; lia].
  - destruct (check_files w root (rel :: blob_files m)) as [[]|e] eqn:Hc; result_simpl.
    + split; [done |]. cbn [ManifestData.files blob_files length]. by rewrite length_map.
    + apply check_files_Raise in Hc as (pre & f & post & Heq & _ & Hf & _).
      exists f. split; [| done]. rewrite Heq. set_solver.
Qed.

Lemma build_files_layout_witness :
  get_ollama_manifest_data sample_world sample_manifest_path = Ok sample_data
  ∧ ManifestData.files sample_data
    = "manifests/registry.ollama.ai/library/llama3/8b"
      :: toBlobPath "sha256:c0" :: map toBlobPath ["sha256:a1"; "sha256:b2"]
  ∧ length (ManifestData.files sample_data) = 4%nat.
Proof.
  assert (path.isabs (getcwd sample_world) = true) as H1 by (vm_compute; reflexivity).
  assert (read_ollama_manifest sample_world
            (path.abspath (getcwd sample_world) sample_manifest_path)
          = Ok sample_manifest) as H2 by (vm_compute; reflexivity).
  destruct (build_files_layout sample_world sample_manifest_path sample_manifest H1 H2)
    as (rel & Hrel & _ & H).
  vm_compute in Hrel. injection Hrel as <-.
  vm_compute in H. vm_compute. by split.
Defined.

(** C2.  The [size] of a returned record is the size of the config plus the
    sum of the sizes of the layers.  The text of the manifest file does not
    enter it: two builds whose manifests decode to the same record have the
    same [size], whatever files they were read from. *)
Theorem build_size (w : world) (manifest : string) (m : Manifest.t) (fs : ManifestData.t) :
  read_ollama_manifest w (path.abspath (getcwd w) manifest) = Ok m →
  get_ollama_manifest_data w manifest = Ok fs →
  ManifestData.size fs
  = ManifestLayer.size (Manifest.config m) + layers_size (Manifest.layers m)
  ∧ ∀ w' manifest' fs',
      read_ollama_manifest w' (path.abspath (getcwd w') manifest') = Ok m →
      get_ollama_manifest_data w' manifest' = Ok fs' →
      ManifestData.size fs' = ManifestData.size fs.
Proof.
  assert (∀ w manifest fs,
    read_ollama_manifest w (path.abspath (getcwd w) manifest) = Ok m →
    get_ollama_manifest_data w manifest = Ok fs →
    ManifestData.size fs
    = ManifestLayer.size (Manifest.config m) + layers_size (Manifest.layers m)) as Hsize.
  { clear. intros w manifest fs Hread.
    destruct (get_ollama_manifest_data_decoded w manifest m Hread) as (rel & _ & ->).
    destruct (check_files _ _ _); result_simpl; [| done].
    intros [= <-]. simpl. lia. }
  intros Hread Hfs. split; [by eapply Hsize |].
  intros w' manifest' fs' Hread' Hfs'.
  rewrite (Hsize _ _ _ Hread Hfs). by eapply Hsize.
Qed.

Lemma build_size_witness :
  get_ollama_manifest_data sample_world sample_manifest_path = Ok sample_data ∧
  ManifestData.size sample_data = 100 + (200 + (300 + 0)).
Proof.
  split; [vm_compute; reflexivity |].
  evaluated (λ H1 H2, proj1 (build_size sample_world sample_manifest_path
                               sample_manifest sample_data H1 H2)).
Defined.

(** C3.  The root is the absolute path of the manifest without its last
    five components (the ascent stops at the leading slashes of a path with
    fewer than five).  For a manifest at
    [root/manifests/registry.ollama.ai/library/NAME/TAG], where [NAME] and
    [TAG] are ordinary components, it is the absolute path of [root], hence
    [root] itself when [root] is absolute and normalised. *)
Theorem RootResolver_five_levels (cwd : string) :
  path.isabs cwd = true →
  (∀ manifest, ∃ k cs,
      (1 ≤ k)%nat ∧ Forall comp_ok cs ∧
      path.abspath cwd manifest = path_of k cs ∧
      RootResolver (path.abspath cwd manifest) = path_of k (drop_last 5 cs))
  ∧ (∀ root NAME TAG,
      proper NAME → proper TAG →
      RootResolver (path.abspath cwd (path.join root (layout NAME TAG)))
      = path.abspath cwd root
      ∧ (path.abspath cwd root = root →
         RootResolver (path.abspath cwd (path.join root (layout NAME TAG))) = root)).
Proof.
  intros Hcwd. split.
  - intros manifest.
    exists (path.initial_slashes (anchored cwd manifest)), (norm_comps (anchored cwd manifest)).
    pose proof (isabs_initial_slashes _ (isabs_anchored cwd manifest Hcwd)) as Hk.
    pose proof (norm_comps_ok (anchored cwd manifest)) as Hcs.
    split_and!; [done | done | by apply abspath_path_of |].
    rewrite abspath_path_of by done. by apply RootResolver_path_of.
  - intros root NAME TAG HN HT.
    assert (RootResolver (path.abspath cwd (path.join root (layout NAME TAG)))
            = path.abspath cwd root) as Heq.
    { assert (Forall proper (layout NAME TAG)) as Hl.
      { unfold layout.
        repeat (apply Forall_cons_2; [first [done | by repeat split] |]).
        apply Forall_nil_2. }
      pose proof (isabs_initial_slashes _ (isabs_anchored cwd root Hcwd)) as Hk.
      pose proof (norm_comps_ok (anchored cwd root)) as Hcs.
      rewrite abspath_join, abspath_path_of by done.
      rewrite RootResolver_path_of.
      - by rewrite (drop_last_app _ (layout NAME TAG)).
      - done.
      - apply Forall_app. split; [done | by apply proper_comp_ok]. }
    split; [done | intros Hroot; by rewrite Heq].
Qed.

Lemma RootResolver_five_levels_witness :
  RootResolver (path.abspath "/home/user" sample_manifest_path) = "/srv/models".
Proof.
  assert (proper "llama3" ∧ proper "8b") as [HN HT] by (by repeat split).
  pose proof (proj2 (proj2 (RootResolver_five_levels "/home/user" eq_refl)
                      "/srv/models" "llama3" "8b" HN HT)) as H.
  vm_compute in H. vm_compute. exact (H eq_refl).
Defined.

(** C4.  With the manifest decoded, [get_ollama_manifest_data] raises
    exactly when an entry of the file list, joined with the root, is not a
    regular file; the [KnownError] names the absolute path of the first such
    entry.  It returns only a record whose every entry was found, and it
    does return when every entry is found.  The check is part of every call
    made by the commands, [list_command] included: a command returns only
    if every file of every manifest was found, and where a manifest cannot
    be built the four commands raise the very exception of the builder,
    for the first such manifest, without any effect. *)
Theorem build_checks_files (w : world) :
  path.isabs (getcwd w) = true →
  (∀ manifest fs,
      get_ollama_manifest_data w manifest = Ok fs →
      Forall (present w (ManifestData.root fs)) (ManifestData.files fs))
  ∧ (∀ manifest m e,
      let manifest_absolute_path := path.abspath (getcwd w) manifest in
      let root := RootResolver manifest_absolute_path in
      read_ollama_manifest w manifest_absolute_path = Ok m →
      get_ollama_manifest_data w manifest = Raise e →
      ∃ rel pre f post,
        path.relpath (getcwd w) manifest_absolute_path root = Ok rel ∧
        rel :: blob_files m = pre ++ f :: post ∧
        Forall (present w root) pre ∧
        isfile w (path.join root [f]) = false ∧
        path.isabs (path.join root [f]) = true ∧
        e = KnownError ("File not found: " +:+ path.join root [f]))
  ∧ (∀ manifest m rel,
      let manifest_absolute_path := path.abspath (getcwd w) manifest in
      let root := RootResolver manifest_absolute_path in
      read_ollama_manifest w manifest_absolute_path = Ok m →
      path.relpath (getcwd w) manifest_absolute_path root = Ok rel →
      Forall (present w root) (rel :: blob_files m) →
      ∃ fs, get_ollama_manifest_data w manifest = Ok fs)
  ∧ (∀ manifests t,
      list_command w manifests = (t, Ok ()) →
      ∀ manifest, manifest ∈ manifests →
        ∃ fs, get_ollama_manifest_data w manifest = Ok fs ∧
              Forall (present w (ManifestData.root fs)) (ManifestData.files fs))
  ∧ (∀ manifests destination tar_path zip_path t,
      copy_command w manifests destination = (t, Ok ())
      ∨ tar_command w manifests tar_path = (t, Ok ())
      ∨ zip_command w manifests zip_path = (t, Ok ()) →
      ∀ manifest, manifest ∈ manifests →
        ∃ fs, get_ollama_manifest_data w manifest = Ok fs ∧
              Forall (present w (ManifestData.root fs)) (ManifestData.files fs))
  ∧ (∀ pre manifest post e destination tar_path zip_path,
      Forall (λ x, ∃ fs, get_ollama_manifest_data w x = Ok fs) pre →
      get_ollama_manifest_data w manifest = Raise e →
      list_command w (pre ++ manifest :: post) = ([], Raise e)
      ∧ copy_command w (pre ++ manifest :: post) destination = ([], Raise e)
      ∧ tar_command w (pre ++ manifest :: post) tar_path = ([], Raise e)
      ∧ zip_command w (pre ++ manifest :: post) zip_path = ([], Raise e))
  ∧ (∀ pre manifest post m rel found f others destination tar_path zip_path,
      let manifest_absolute_path := path.abspath (getcwd w) manifest in
      let root := RootResolver manifest_absolute_path in
      Forall (λ x, ∃ fs, get_ollama_manifest_data w x = Ok fs) pre →
      read_ollama_manifest w manifest_absolute_path = Ok m →
      path.relpath (getcwd w) manifest_absolute_path root = Ok rel →
      rel :: blob_files m = found ++ f :: others →
      Forall (present w root) found →
      isfile w (path.join root [f]) = false →
      let e := KnownError ("File not found: " +:+ path.join root [f]) in
      list_command w (pre ++ manifest :: post) = ([], Raise e)
      ∧ copy_command w (pre ++ manifest :: post) destination = ([], Raise e)
      ∧ tar_command w (pre ++ manifest :: post) tar_path = ([], Raise e)
      ∧ zip_command w (pre ++ manifest :: post) zip_path = ([], Raise e)).
Proof.
  intros Hcwd.
  assert (∀ manifests data,
      get_ollama_manifests_data w manifests = Ok data →
      ∀ manifest, manifest ∈ manifests →
        ∃ fs, get_ollama_manifest_data w manifest = Ok fs ∧
              Forall (present w (ManifestData.root fs)) (ManifestData.files fs)) as Hbuilt.
  { intros manifests data Hdata manifest Hin.
    apply get_ollama_manifests_data_Ok in Hdata.
    destruct (proj1 (list_elem_of_lookup _ _) Hin) as [i Hi].
    destruct (Forall2_lookup_l _ _ _ _ _ Hdata Hi) as (fs & _ & Hfs).
    exists fs. split; [done | by eapply get_ollama_manifest_data_present]. }
  split_and!.
  - apply get_ollama_manifest_data_present.
  - intros manifest m e abs root Hread.
    destruct (get_ollama_manifest_data_decoded w manifest m Hread) as (rel & Hrel & ->).
    fold abs root in Hrel |- *.
    destruct (check_files w root (rel :: blob_files m)) as [[]|e'] eqn:Hc;
      result_simpl; [done |].
    intros [= ->].
    apply check_files_Raise in Hc as (pre & f & post & Heq & Hpre & Hf & ->).
    exists rel, pre, f, post. split_and!; try done.
    apply isabs_join. by apply isabs_RootResolver.
  - intros manifest m rel abs root Hread Hrel Hall.
    destruct (get_ollama_manifest_data_decoded w manifest m Hread) as (rel' & Hrel' & ->).
    fold abs root in Hrel' |- *. rewrite Hrel in Hrel'. injection Hrel' as <-.
    apply check_files_Ok in Hall as ->. result_simpl. eauto.
  - intros manifests t Hlist.
    destruct (command_returns_built w manifests _ t () Hlist) as [data Hdata].
    by eapply Hbuilt.
  - intros manifests destination tar_path zip_path t [Hc | [Hc | Hc]];
      destruct (command_returns_built w manifests _ t () Hc) as [data Hdata];
      by eapply Hbuilt.
  - intros pre manifest post e destination tar_path zip_path Hpre He.
    apply commands_raise. by apply get_ollama_manifests_data_first_failure.
  - intros pre manifest post m rel found f others destination tar_path zip_path
      abs root Hpre Hread Hrel Hfiles Hfound Hmissing e.
    apply commands_raise. apply get_ollama_manifests_data_first_failure; [done |].
    destruct (get_ollama_manifest_data_decoded w manifest m Hread) as (rel' & Hrel' & ->).
    fold abs root in Hrel' |- *. rewrite Hrel in Hrel'. injection Hrel' as <-.
    assert (check_files w root (rel :: blob_files m) = Raise e) as ->; [| done].
    apply check_files_Raise. exists found, f, others. by split_and!.
Qed.

Lemma build_checks_files_witness :
  get_ollama_manifest_data broken_world sample_manifest_path
  = Raise (KnownError "File not found: /srv/models/blobs/sha256-b2")
  ∧ (∃ rel pre f post,
      path.relpath "/home/user" sample_manifest_path "/srv/models" = Ok rel ∧
      rel :: blob_files sample_manifest = pre ++ f :: post ∧
      Forall (present broken_world "/srv/models") pre ∧
      isfile broken_world (path.join "/srv/models" [f]) = false ∧
      path.isabs (path.join "/srv/models" [f]) = true ∧
      KnownError "File not found: /srv/models/blobs/sha256-b2"
      = KnownError ("File not found: " +:+ path.join "/srv/models" [f]))
  ∧ list_command broken_world [sample_manifest_path]
    = ([], Raise (KnownError "File not found: /srv/models/blobs/sha256-b2")).
Proof.
  split; [vm_compute; reflexivity |]. split.
  - evaluated (proj1 (proj2 (build_checks_files broken_world eq_refl))
                 sample_manifest_path sample_manifest
                 (KnownError "File not found: /srv/models/blobs/sha256-b2")).
  - pose proof (proj1 (proj2 (proj2 (proj2 (proj2 (proj2
        (build_checks_files broken_world eq_refl))))))
        [] sample_manifest_path []
        (KnownError "File not found: /srv/models/blobs/sha256-b2")
        "/tmp/out" "-" "-" (Forall_nil_2 _)) as H.
    vm_compute in H. vm_compute. exact (proj1 (H eq_refl)).
Defined.

(** C7 (amended).  For a digest that does not begin with a slash,
    [toBlobPath] is ["blobs/"] followed by the digest with every colon
    replaced by a dash: same length, the same characters elsewhere, no
    colon left; ["sha256:deadbeef"] gives ["blobs/sha256-deadbeef"].  Two
    digests that share everything up to a colon and differ in the
    colon-free part after it have different blob paths. *)
Theorem toBlobPath_spec :
  (∀ digest,
      str.startswith "/" digest = false →
      toBlobPath digest = "blobs/" +:+ str.replace ":" "-" digest
      ∧ String.length (str.replace ":" "-" digest) = String.length digest
      ∧ (∀ i, String.get i (str.replace ":" "-" digest)
              = (λ c, if Ascii.eqb c ":" then "-"%char else c) <$> String.get i digest)
      ∧ lacks ":" (str.replace ":" "-" digest) = true)
  ∧ toBlobPath "sha256:deadbeef" = "blobs/sha256-deadbeef"
  ∧ (∀ algo rest1 rest2,
      lacks ":" rest1 = true → lacks ":" rest2 = true →
      toBlobPath (algo +:+ ":" +:+ rest1) = toBlobPath (algo +:+ ":" +:+ rest2) →
      rest1 = rest2).
Proof.
  split_and!.
  - intros digest Hrel. split_and!.
    + unfold toBlobPath, path.join, path.join2. simpl foldl.
      destruct (str.startswith "/" (str.replace ":" "-" digest)) eqn:Hs; [| done].
      rewrite startswith_sep in Hrel, Hs. destruct digest as [|c d]; [done |].
      simpl in Hs. destruct (Ascii.eqb c ":") eqn:Hc; [done | congruence].
    + apply replace_length.
    + apply replace_get.
    + by apply replace_removes.
  - done.
  - intros algo rest1 rest2 H1 H2. unfold toBlobPath, path.join, path.join2. simpl foldl.
    rewrite !replace_app. change (str.replace ":" "-" ":") with "-".
    rewrite !(replace_lacks ":" "-" rest1), !(replace_lacks ":" "-" rest2) by done.
    assert (∀ r, str.startswith "/" (str.replace ":" "-" algo +:+ "-" +:+ r)
                 = str.startswith "/" (str.replace ":" "-" algo +:+ "-")) as Hsw.
    { intros r. rewrite !startswith_sep. by destruct (str.replace ":" "-" algo). }
    rewrite (Hsw rest1), (Hsw rest2).
    destruct (str.startswith "/" _); intros H.
    + by apply sapp_inv_head, sapp_inv_head in H.
    + by do 4 apply sapp_inv_head in H.
Qed.

Lemma toBlobPath_spec_witness :
  toBlobPath "sha256:a1" = "blobs/" +:+ str.replace ":" "-" "sha256:a1"
  ∧ ("a1" = "b2" ∨ toBlobPath "sha256:a1" ≠ toBlobPath "sha256:b2").
Proof.
  split.
  - exact (proj1 (proj1 toBlobPath_spec "sha256:a1" eq_refl)).
  - right. intros H.
    pose proof (proj2 (proj2 toBlobPath_spec) "sha256" "a1" "b2" eq_refl eq_refl H).
    discriminate.
Defined.

(** C7, as stated, fails in two places: [posixpath.join] drops ["blobs"]
    when the digest begins with a slash, and two digests that differ after
    their first colon collide when one has a colon where the other has a
    dash. *)
Lemma toBlobPath_absolute_digest :
  toBlobPath "/sha256:deadbeef" = "/sha256-deadbeef"
  ∧ toBlobPath "/sha256:deadbeef" ≠ "blobs/" +:+ str.replace ":" "-" "/sha256:deadbeef"
  ∧ "sha256:a:b" ≠ "sha256:a-b"
  ∧ toBlobPath "sha256:a:b" = toBlobPath "sha256:a-b".
Proof. by split_and!. Qed.

(** ** The manifest resolver *)

Section resolver_facts.
Implicit Types (s name tag : string) (p : ascii → bool).

Lemma span_app p s t :
  all_chars p s = true → stops p t = true → span p (s +:+ t) = (s, t).
Proof.
  intros Hs Ht. induction s as [|c s IH]; rewrite ?sapp_cons, ?sapp_nil_l.
  - destruct t as [|c t]; [done |]. simpl in *.
    by apply negb_true_iff in Ht as ->.
  - simpl in *. apply andb_true_iff in Hs as [-> Hs]. by rewrite IH.
Qed.

Lemma span_inv p s a b :
  span p s = (a, b) → s = a +:+ b ∧ all_chars p a = true ∧ stops p b = true.
Proof.
  revert a b; induction s as [|c s IH]; intros a b; simpl.
  - by intros [= <- <-].
  - destruct (p c) eqn:Hc.
    + destruct (span p s) as [a' b']. intros [= <- <-].
      destruct (IH a' b' eq_refl) as (-> & Ha & Hb).
      simpl. by rewrite Hc, Ha.
    + intros [= <- <-]. simpl. by rewrite Hc.
Qed.

Lemma match_ident_app name t :
  ident name = true → stops word t = true → match_ident (name +:+ t) = Some (name, t).
Proof.
  destruct name as [|c name]; [done |]. simpl.
  intros [-> Hn]%andb_true_iff Ht. by rewrite span_app.
Qed.

Lemma match_ident_inv s name t :
  match_ident s = Some (name, t) →
  s = name +:+ t ∧ ident name = true ∧ stops word t = true.
Proof.
  destruct s as [|c s]; [done |]. simpl.
  destruct (alnum c) eqn:Hc; [| done].
  destruct (span word s) as [a b] eqn:Hspan. intros [= <- <-].
  apply span_inv in Hspan as (-> & Ha & Hb). simpl. by rewrite Hc.
Qed.

Lemma at_dollar_inv s : at_dollar s = true → s = "" ∨ s = String newline "".
Proof.
  destruct s as [|c [|??]]; simpl; [by left | | done].
  intros ->%Ascii.eqb_eq. by right.
Qed.

(** What the pattern of line 142 accepts, and the groups of the match:
    [name:tag], or [name:tag] followed by one newline. *)
Lemma model_pattern_match_Some s name tag :
  model_pattern_match s = Some (name, tag) ↔
  ident name = true ∧ ident tag = true ∧
  (s = name +:+ ":" +:+ tag ∨ s = name +:+ ":" +:+ tag +:+ String newline "").
Proof.
  unfold model_pattern_match. split.
  - destruct (match_ident s) as [[n [|c r]]|] eqn:Hn; [done | | done].
    destruct (Ascii.eqb_spec c ":") as [->|]; [| done].
    destruct (match_ident r) as [[t r']|] eqn:Ht; [| done].
    destruct (at_dollar r') eqn:Hd; [| done]. intros [= <- <-].
    apply match_ident_inv in Hn as (-> & Hn & _).
    apply match_ident_inv in Ht as (-> & Ht & _).
    split_and!; [done | done |].
    apply at_dollar_inv in Hd as [-> | ->]; [left | right]; by rewrite ?sapp_nil_r.
  - intros (Hn & Ht & Hs).
    assert (∃ nl, s = name +:+ ":" +:+ tag +:+ nl ∧ at_dollar nl = true
                  ∧ stops word nl = true) as (nl & -> & Hd & Hnl).
    { destruct Hs as [-> | ->];
        [exists "" | exists (String newline "")]; by rewrite ?sapp_nil_r. }
    rewrite match_ident_app by done. rewrite sapp_cons, sapp_nil_l.
    simpl Ascii.eqb. cbv iota.
    rewrite match_ident_app by done. by rewrite Hd.
Qed.

(** The match is on the whole string whenever the string does not end with
    a newline. *)
Lemma model_pattern_match_reference s name tag :
  s = name +:+ ":" +:+ tag → ident name = true → ident tag = true →
  model_pattern_match s = Some (name, tag).
Proof. intros -> Hn Ht. apply model_pattern_match_Some. eauto. Qed.

Lemma model_pattern_match_None s :
  model_pattern_match s = None ↔
  ¬ is_reference s ∧ ¬ (∃ r, s = r +:+ String newline "" ∧ is_reference r).
Proof.
  split.
  - intros Hnone. split.
    + intros (name & tag & -> & Hn & Ht).
      by rewrite (model_pattern_match_reference _ name tag) in Hnone.
    + intros (r & -> & name & tag & -> & Hn & Ht).
      assert (model_pattern_match ((name +:+ ":" +:+ tag) +:+ String newline "")
              = Some (name, tag)) as E; [| congruence].
      apply model_pattern_match_Some. split_and!; [done | done |].
      right. by rewrite !sapp_assoc.
  - intros [H1 H2].
    destruct (model_pattern_match s) as [[name tag]|] eqn:Hm; [| done].
    apply model_pattern_match_Some in Hm as (Hn & Ht & [-> | ->]).
    + destruct H1. by exists name, tag.
    + destruct H2. exists (name +:+ ":" +:+ tag).
      split; [by rewrite !sapp_assoc | by exists name, tag].
Qed.

End resolver_facts.

Section resolve_facts.
Context (w : world).
Implicit Types (models_dir : string) (values outs : list string).

(** A value of the shape [name:tag] is looked up in the store, whether or
    not a file of that name exists. *)
Lemma resolve_one_reference models_dir name tag :
  ident name = true → ident tag = true →
  let model_or_manifest := name +:+ ":" +:+ tag in
  let manifest := path.join models_dir (layout name tag) in
  resolve_one w models_dir model_or_manifest
  = if isfile w manifest then Ok manifest
    else Raise (KnownError (model_or_manifest +:+ " manifest's not found: " +:+ manifest)).
Proof.
  intros Hn Ht. cbv zeta. unfold resolve_one.
  by rewrite (model_pattern_match_reference _ name tag).
Qed.

(** A value the pattern rejects is a path. *)
Lemma resolve_one_literal models_dir model_or_manifest :
  model_pattern_match model_or_manifest = None →
  resolve_one w models_dir model_or_manifest
  = if isfile w model_or_manifest then Ok model_or_manifest
    else Raise (KnownError ("File not found: " +:+ model_or_manifest)).
Proof. intros Hm. unfold resolve_one. by rewrite Hm. Qed.

Lemma gen_Ok models_dir values acc outs :
  gen w models_dir values acc = Ok outs ↔
  ∃ outs', outs = acc ++ outs' ∧
           Forall2 (λ v o, resolve_one w models_dir v = Ok o) values outs'.
Proof.
  revert acc; induction values as [|v values IH]; intros acc; cbn [gen].
  - split.
    + intros [= <-]. exists []. by rewrite app_nil_r.
    + intros (outs' & -> & H). inversion H. by rewrite app_nil_r.
  - destruct (resolve_one w models_dir v) as [o|e] eqn:Hv.
    + rewrite IH. split.
      * intros (outs' & -> & H). exists (o :: outs').
        split; [by rewrite <- app_assoc | by constructor].
      * intros (outs' & -> & H). inversion H as [|? o' ?? Ho H']; subst.
        assert (o' = o) as -> by congruence.
        exists l'. by rewrite <- app_assoc.
    + split; [done |]. intros (outs' & _ & H). inversion H; congruence.
Qed.

Lemma gen_Raise models_dir pre v post acc e :
  Forall (λ x, ∃ o, resolve_one w models_dir x = Ok o) pre →
  resolve_one w models_dir v = Raise e →
  gen w models_dir (pre ++ v :: post) acc = Raise e.
Proof.
  intros Hpre Hv. revert acc. induction Hpre as [|x pre [o Hx] _ IH]; intros acc.
  - cbn [app gen]. by rewrite Hv.
  - cbn [app gen]. rewrite Hx. apply IH.
Qed.

End resolve_facts.

(** C5.  The value ["llama3:8b"] followed by a newline is not of the shape
    [name:tag], and a file of that name exists; the resolver nevertheless
    takes it for the reference [llama3:8b] and raises because the store has
    no such manifest.  The [$] of the pattern also matches before a final
    newline. *)
Theorem resolve_newline_reference :
  ¬ is_reference newline_reference
  ∧ isfile newline_world newline_reference = true
  ∧ model_pattern_match newline_reference = Some ("llama3", "8b")
  ∧ resolve_manifests newline_world [newline_reference] "/srv/models"
    = Raise (KnownError
        (newline_reference +:+ " manifest's not found: "
         +:+ "/srv/models/manifests/registry.ollama.ai/library/llama3/8b")).
Proof.
  split_and!; [| done | done | done].
  intros (name & tag & Heq & Hn & Ht).
  pose proof (model_pattern_match_reference _ name tag Heq Hn Ht) as Hm.
  vm_compute in Hm. injection Hm as <- <-. by vm_compute in Heq.
Qed.

(** C6.  [resolve_manifests] returns exactly when every value resolves, and
    then the list of the resolved paths, one for each value and in the same
    order; otherwise it raises the exception of the first value that does
    not resolve and returns no list. *)
Theorem resolve_manifests_order (w : world) (values : list string) (models_dir : string) :
  (∀ outs,
      resolve_manifests w values models_dir = Ok outs ↔
      Forall2 (λ v o, resolve_one w models_dir v = Ok o) values outs)
  ∧ (∀ outs,
      resolve_manifests w values models_dir = Ok outs →
      length outs = length values ∧
      ∀ i v, values !! i = Some v →
             ∃ o, outs !! i = Some o ∧ resolve_one w models_dir v = Ok o)
  ∧ (∀ pre v post e,
      values = pre ++ v :: post →
      Forall (λ x, ∃ o, resolve_one w models_dir x = Ok o) pre →
      resolve_one w models_dir v = Raise e →
      resolve_manifests w values models_dir = Raise e).
Proof.
  assert (∀ outs,
      resolve_manifests w values models_dir = Ok outs ↔
      Forall2 (λ v o, resolve_one w models_dir v = Ok o) values outs) as Hok.
  { intros outs. unfold resolve_manifests. rewrite gen_Ok. split.
    - by intros (outs' & -> & H).
    - intros H. by exists outs. }
  split_and!; [done | |].
  - intros outs H%Hok. split; [symmetry; by eapply Forall2_length |].
    intros i v Hi. destruct (Forall2_lookup_l _ _ _ _ _ H Hi) as (o & Ho & Hv). eauto.
  - intros pre v post e -> Hpre Hv. by apply gen_Raise.
Qed.

Lemma resolve_manifests_order_witness :
  resolve_manifests sample_world ["llama3:8b"; "llama3:9b"; "nowhere"] "/srv/models"
  = Raise (KnownError
      "llama3:9b manifest's not found: /srv/models/manifests/registry.ollama.ai/library/llama3/9b").
Proof.
  apply (proj2 (proj2 (resolve_manifests_order sample_world
                         ["llama3:8b"; "llama3:9b"; "nowhere"] "/srv/models"))
           ["llama3:8b"] "llama3:9b" ["nowhere"]).
  - reflexivity.
  - constructor; [| constructor]. eexists. vm_compute. reflexivity.
  - vm_compute. reflexivity.
Defined.

(** C8.  The root of a file set depends on the path of the manifest (and on
    the working directory that makes it absolute) and on nothing else: two
    runs with any two [models_dir], any lists of references and any two
    file systems give the same root to the same manifest path. *)
Theorem root_independent_of_models_dir (w1 w2 : world)
    (models_dir1 models_dir2 : string) (refs1 refs2 manifests1 manifests2 : list string)
    (data1 data2 : list ManifestData.t) :
  getcwd w1 = getcwd w2 →
  resolve_manifests w1 refs1 models_dir1 = Ok manifests1 →
  get_ollama_manifests_data w1 manifests1 = Ok data1 →
  resolve_manifests w2 refs2 models_dir2 = Ok manifests2 →
  get_ollama_manifests_data w2 manifests2 = Ok data2 →
  ∀ i j manifest,
    manifests1 !! i = Some manifest → manifests2 !! j = Some manifest →
    ∃ fs1 fs2,
      data1 !! i = Some fs1 ∧ data2 !! j = Some fs2 ∧
      ManifestData.root fs1 = ManifestData.root fs2 ∧
      ManifestData.root fs1 = RootResolver (path.abspath (getcwd w1) manifest).
Proof.
  intros Hcwd _ Hd1%get_ollama_manifests_data_Ok _ Hd2%get_ollama_manifests_data_Ok
    i j manifest Hi Hj.
  destruct (Forall2_lookup_l _ _ _ _ _ Hd1 Hi) as (fs1 & Hfs1 & H1).
  destruct (Forall2_lookup_l _ _ _ _ _ Hd2 Hj) as (fs2 & Hfs2 & H2).
  exists fs1, fs2. split_and!; [done | done | | by apply get_ollama_manifest_data_root].
  rewrite (get_ollama_manifest_data_root _ _ _ H1),
    (get_ollama_manifest_data_root _ _ _ H2). by rewrite Hcwd.
Qed.

Lemma root_independent_of_models_dir_witness :
  ∃ fs1 fs2,
    [sample_data] !! 0%nat = Some fs1 ∧ [sample_data] !! 0%nat = Some fs2 ∧
    ManifestData.root fs1 = ManifestData.root fs2 ∧
    ManifestData.root fs1
    = RootResolver (path.abspath (getcwd sample_world) sample_manifest_path).
Proof.
  apply (root_independent_of_models_dir sample_world sample_world
           "/srv/models" "/nowhere" ["llama3:8b"] [sample_manifest_path]
           [sample_manifest_path] [sample_manifest_path] [sample_data] [sample_data]);
    vm_compute; reflexivity.
Defined.

(** ** The commands *)

Section command_facts.
Context (w : world).

(** A loop whose body only emits runs to its end. *)
Lemma for_each_emits {A} (l : list A) (body : A → io unit) (out : A → list effect) :
  (∀ x, body x = (out x, Ok ())) → for_each l body = (concat (map out l), Ok ()).
Proof.
  intros Hbody. induction l as [|x l IH]; [done |].
  cbn [for_each mbind io_bind map concat]. by rewrite Hbody, IH.
Qed.

Lemma list_command_built manifests data :
  get_ollama_manifests_data w manifests = Ok data →
  list_command w manifests
  = match check_single_ollama_root data with
    | Ok _ => (list_output data, Ok ())
    | Raise e => ([], Raise e)
    end.
Proof.
  intros Hdata. unfold list_command. rewrite Hdata. result_simpl.
  destruct (check_single_ollama_root data) as [[]|e]; result_simpl; [| done].
  unfold list_output.
  by rewrite (for_each_emits data _
    (λ d, concat (map (λ file, [Print file]) (ManifestData.files d))))
    by (intros d; by apply for_each_emits).
Qed.

Lemma copy_command_built manifests destination data :
  get_ollama_manifests_data w manifests = Ok data →
  copy_command w manifests destination = (copy_output destination data, Ok ()).
Proof.
  intros Hdata. unfold copy_command. rewrite Hdata. result_simpl.
  unfold copy_output.
  by rewrite (for_each_emits data _ (λ d, concat (map (λ file,
      [ Makedirs (path.dirname (path.join destination [file]));
        Copy2 (path.join (ManifestData.root d) [file]) (path.join destination [file]) ])
      (ManifestData.files d))))
    by (intros d; by apply for_each_emits).
Qed.

Lemma tar_command_built manifests archive_path data :
  get_ollama_manifests_data w manifests = Ok data →
  tar_command w manifests archive_path = (tar_output archive_path data, Ok ()).
Proof.
  intros Hdata. unfold tar_command. rewrite Hdata. result_simpl.
  unfold tar_output.
  by rewrite (for_each_emits data _ (λ d, concat (map (λ file,
      [TarAdd (path.join (ManifestData.root d) [file]) file]) (ManifestData.files d))))
    by (intros d; by apply for_each_emits).
Qed.

Lemma zip_command_built manifests archive_path data :
  get_ollama_manifests_data w manifests = Ok data →
  zip_command w manifests archive_path = (zip_output archive_path data, Ok ()).
Proof.
  intros Hdata. unfold zip_command. rewrite Hdata. result_simpl.
  unfold zip_output.
  by rewrite (for_each_emits data _ (λ d, concat (map (λ file,
      [ZipWrite (path.join (ManifestData.root d) [file]) file]) (ManifestData.files d))))
    by (intros d; by apply for_each_emits).
Qed.

(** When the file sets cannot be built, a command does nothing else. *)
Lemma commands_not_built manifests destination tar_path zip_path e :
  get_ollama_manifests_data w manifests = Raise e →
  list_command w manifests = ([], Raise e)
  ∧ copy_command w manifests destination = ([], Raise e)
  ∧ tar_command w manifests tar_path = ([], Raise e)
  ∧ zip_command w manifests zip_path = ([], Raise e).
Proof.
  intros Hdata. unfold list_command, copy_command, tar_command, zip_command.
  by rewrite Hdata.
Qed.

(** The entry point has no effect either when a reference does not resolve
    or a file set cannot be built, and it ends with the message of the
    [KnownError]. *)
Lemma main_checks_first (a : args) :
  (∀ msg, resolve_manifests w (args_model a) (args_models_dir a) = Raise (KnownError msg) →
          main w a = ([], SysExit msg))
  ∧ (∀ manifests msg,
      resolve_manifests w (args_model a) (args_models_dir a) = Ok manifests →
      get_ollama_manifests_data w manifests = Raise (KnownError msg) →
      main w a = ([], SysExit msg)).
Proof.
  split.
  - intros msg Hres. unfold main. by rewrite Hres.
  - intros manifests msg Hres Hdata. unfold main. rewrite Hres. result_simpl.
    destruct (commands_not_built manifests "" "" "" _ Hdata) as (Hl & _).
    destruct (args_command a) as [|to|archive|archive].
    + by rewrite Hl.
    + by rewrite (proj1 (proj2 (commands_not_built manifests to "" "" _ Hdata))).
    + by rewrite (proj1 (proj2 (proj2 (commands_not_built manifests "" archive "" _ Hdata)))).
    + by rewrite (proj2 (proj2 (proj2 (commands_not_built manifests "" "" archive _ Hdata)))).
Qed.

End command_facts.

Lemma roots_same data r :
  data ≠ [] → Forall (λ d, ManifestData.root d = r) data → roots data = {[ r ]}.
Proof.
  intros Hne Hall. unfold roots. apply set_eq. intros x.
  rewrite elem_of_list_to_set, elem_of_singleton, list_elem_of_fmap. split.
  - intros (d & -> & Hd). by eapply Forall_forall in Hall.
  - intros ->. destruct data as [|d data]; [done |].
    exists d. split; [| by left]. by inversion Hall.
Qed.

Lemma roots_differ data d1 d2 :
  d1 ∈ data → d2 ∈ data → ManifestData.root d1 ≠ ManifestData.root d2 →
  size (roots data) ≠ 1%nat.
Proof.
  intros H1 H2 Hne Hsize. apply size_1_elem_of in Hsize as [r Hr].
  assert (∀ d, d ∈ data → ManifestData.root d = r) as Hall.
  { intros d Hd. assert (ManifestData.root d ∈ roots data) as Hin.
    { unfold roots. rewrite elem_of_list_to_set, list_elem_of_fmap. eauto. }
    rewrite Hr in Hin. by apply elem_of_singleton in Hin. }
  rewrite (Hall d1), (Hall d2) in Hne; done.
Qed.

(** C9.  [check_single_ollama_root] raises its [KnownError] exactly when
    the number of distinct roots is not one, and returns otherwise; it
    returns for a non-empty list with one root and raises for two file sets
    with different roots.  [list_command] runs it on the file sets it has
    built and prints nothing when it raises; [copy_command], [tar_command]
    and [zip_command] do not run it and emit every file set, whatever the
    roots. *)
Theorem single_root_only_for_list (w : world) (manifests : list string)
    (data : list ManifestData.t) (destination tar_path zip_path : string) :
  get_ollama_manifests_data w manifests = Ok data →
  (check_single_ollama_root data
   = if bool_decide (size (roots data) = 1%nat) then Ok ()
     else Raise (KnownError "All manifests must be in the same OLLAMA_MODELS directory."))
  ∧ (∀ r, data ≠ [] → Forall (λ d, ManifestData.root d = r) data →
          check_single_ollama_root data = Ok ())
  ∧ (∀ d1 d2, d1 ∈ data → d2 ∈ data → ManifestData.root d1 ≠ ManifestData.root d2 →
          check_single_ollama_root data
          = Raise (KnownError "All manifests must be in the same OLLAMA_MODELS directory."))
  ∧ list_command w manifests
    = (if bool_decide (size (roots data) = 1%nat) then (list_output data, Ok ())
       else ([], Raise (KnownError
                  "All manifests must be in the same OLLAMA_MODELS directory.")))
  ∧ copy_command w manifests destination = (copy_output destination data, Ok ())
  ∧ tar_command w manifests tar_path = (tar_output tar_path data, Ok ())
  ∧ zip_command w manifests zip_path = (zip_output zip_path data, Ok ()).
Proof.
  intros Hdata.
  assert (check_single_ollama_root data
   = if bool_decide (size (roots data) = 1%nat) then Ok ()
     else Raise (KnownError "All manifests must be in the same OLLAMA_MODELS directory."))
    as Hcheck.
  { unfold check_single_ollama_root. fold (roots data).
    destruct (decide (size (roots data) = 1%nat)) as [Hs|Hs].
    - rewrite (bool_decide_eq_true_2 _ Hs), bool_decide_eq_false_2; [done | by intros []].
    - by rewrite (bool_decide_eq_false_2 _ Hs), bool_decide_eq_true_2. }
  split_and!.
  - done.
  - intros r Hne Hall. rewrite Hcheck, (roots_same data r) by done.
    by rewrite size_singleton.
  - intros d1 d2 H1 H2 Hne. rewrite Hcheck.
    pose proof (roots_differ data d1 d2 H1 H2 Hne) as Hsize.
    by rewrite (bool_decide_eq_false_2 _ Hsize).
  - rewrite (list_command_built w manifests data Hdata), Hcheck.
    by destruct (bool_decide _).
  - by apply copy_command_built.
  - by apply tar_command_built.
  - by apply zip_command_built.
Qed.

Lemma single_root_only_for_list_witness :
  list_command two_stores_world [sample_manifest_path; other_manifest_path]
  = ([], Raise (KnownError "All manifests must be in the same OLLAMA_MODELS directory."))
  ∧ tar_command two_stores_world [sample_manifest_path; other_manifest_path] "-"
    = (tar_output "-" [sample_data; other_data], Ok ()).
Proof.
  pose proof (single_root_only_for_list two_stores_world
                [sample_manifest_path; other_manifest_path]
                [sample_data; other_data] "/tmp/out" "-" "-") as H.
  vm_compute in H. vm_compute.
  destruct (H eq_refl) as (_ & _ & _ & Hlist & _ & Htar & _). by split.
Defined.

(** C10.  Each of the four commands builds and checks every file set before
    its first effect: a command that has emitted anything had every file
    of every manifest in place, and when a file of some manifest is missing
    (or a manifest cannot be built for any other reason) the four commands
    raise without a single effect. *)
Theorem commands_check_before_output (w : world) (manifests : list string)
    (destination tar_path zip_path : string) :
  let commands :=
    [ list_command w manifests; copy_command w manifests destination;
      tar_command w manifests tar_path; zip_command w manifests zip_path ] in
  (∀ c, c ∈ commands → c.1 ≠ [] →
      ∃ data,
        get_ollama_manifests_data w manifests = Ok data ∧
        Forall2 (λ manifest fs,
            get_ollama_manifest_data w manifest = Ok fs ∧
            Forall (present w (ManifestData.root fs)) (ManifestData.files fs))
          manifests data)
  ∧ (∀ manifest e,
      manifest ∈ manifests → get_ollama_manifest_data w manifest = Raise e →
      ∃ e', Forall (λ c, c = ([], Raise e')) commands)
  ∧ (∀ manifest m rel f,
      let manifest_absolute_path := path.abspath (getcwd w) manifest in
      let root := RootResolver manifest_absolute_path in
      manifest ∈ manifests →
      read_ollama_manifest w manifest_absolute_path = Ok m →
      path.relpath (getcwd w) manifest_absolute_path root = Ok rel →
      f ∈ rel :: blob_files m → isfile w (path.join root [f]) = false →
      ∃ e', Forall (λ c, c = ([], Raise e')) commands).
Proof.
  intros commands.
  assert (∀ manifest e,
      manifest ∈ manifests → get_ollama_manifest_data w manifest = Raise e →
      ∃ e', Forall (λ c, c = ([], Raise e')) commands) as Hraise.
  { intros manifest e Hin He.
    destruct (get_ollama_manifests_data_Raise w manifests manifest e Hin He) as [e' He'].
    exists e'.
    destruct (commands_not_built w manifests destination tar_path zip_path e' He')
      as (H1 & H2 & H3 & H4).
    subst commands. rewrite H1, H2, H3, H4. by repeat constructor. }
  split_and!; [| done |].
  - intros c Hc Hout.
    destruct (get_ollama_manifests_data w manifests) as [data|e] eqn:Hdata.
    + exists data. split; [done |].
      apply get_ollama_manifests_data_Ok in Hdata.
      eapply Forall2_impl; [done |]. intros manifest fs Hfs.
      exact (conj Hfs (get_ollama_manifest_data_present w manifest fs Hfs)).
    + destruct (commands_not_built w manifests destination tar_path zip_path e Hdata)
        as (H1 & H2 & H3 & H4).
      subst commands. rewrite H1, H2, H3, H4 in Hc.
      repeat (apply elem_of_cons in Hc as [->|Hc]; [by destruct Hout |]).
      by apply elem_of_nil in Hc.
  - intros manifest m rel f abs root Hin Hread Hrel Hf Hmissing.
    destruct (get_ollama_manifest_data w manifest) as [fs|e] eqn:Hfs; [| by eapply Hraise].
    exfalso.
    destruct (get_ollama_manifest_data_decoded w manifest m Hread) as (rel' & Hrel' & Heq).
    fold abs root in Hrel', Heq. rewrite Hrel in Hrel'. injection Hrel' as <-.
    rewrite Hfs in Heq.
    destruct (check_files w root (rel :: blob_files m)) as [[]|] eqn:Hc; [| done].
    apply check_files_Ok in Hc. eapply Forall_forall in Hc; [| done].
    unfold present in Hc. congruence.
Qed.

Lemma commands_check_before_output_witness :
  ∃ e',
    Forall (λ c, c = ([], Raise e'))
      [ list_command broken_world [sample_manifest_path];
        copy_command broken_world [sample_manifest_path] "/tmp/out";
        tar_command broken_world [sample_manifest_path] "-";
        zip_command broken_world [sample_manifest_path] "models.zip" ].
Proof.
  apply (proj1 (proj2 (commands_check_before_output broken_world
                         [sample_manifest_path] "/tmp/out" "-" "models.zip"))
           sample_manifest_path
           (KnownError "File not found: /srv/models/blobs/sha256-b2")).
  - by left.
  - vm_compute. reflexivity.
Defined.

(** * Further properties *)

(** ** The pattern and the resolver *)

Section more_resolver_facts.
Context (w : world).

Lemma word_not_sep c : word c = true → Ascii.eqb c "/" = false.
Proof. destruct (Ascii.eqb_spec c "/") as [->|]; [by vm_compute | done]. Qed.

Lemma alnum_word c : alnum c = true → word c = true.
Proof. unfold word. by intros ->. Qed.

Lemma all_word_lacks_sep s : all_chars word s = true → lacks "/" s = true.
Proof.
  induction s as [|c s IH]; [done |]. simpl.
  intros [Hc Hs]%andb_true_iff. by rewrite (word_not_sep c Hc), IH.
Qed.

Lemma ident_lacks_sep s : ident s = true → lacks "/" s = true.
Proof.
  destruct s as [|c s]; [done |]. simpl. intros [Hc Hs]%andb_true_iff.
  by rewrite (word_not_sep c (alnum_word c Hc)), all_word_lacks_sep.
Qed.

(** A group of the pattern is an ordinary path component. *)
Lemma ident_proper s : ident s = true → proper s.
Proof.
  intros Hs. split_and!.
  - split; [by destruct s | by apply ident_lacks_sep].
  - intros ->. by vm_compute in Hs.
  - intros ->. by vm_compute in Hs.
Qed.

Lemma model_pattern_match_lacks_sep s name tag :
  model_pattern_match s = Some (name, tag) → lacks "/" s = true.
Proof.
  intros (Hn & Ht & Hs)%model_pattern_match_Some.
  apply ident_lacks_sep in Hn, Ht.
  destruct Hs as [-> | ->]; rewrite !lacks_app, Hn, Ht; done.
Qed.

Lemma resolve_one_isfile models_dir v o :
  resolve_one w models_dir v = Ok o → isfile w o = true.
Proof.
  unfold resolve_one. destruct (model_pattern_match v) as [[name tag]|].
  - destruct (isfile w _) eqn:Hf; [| done]. by intros [= <-].
  - destruct (isfile w v) eqn:Hf; [| done]. by intros [= <-].
Qed.

Lemma layout_proper name tag :
  ident name = true → ident tag = true → Forall proper (layout name tag).
Proof.
  intros Hn Ht. unfold layout.
  repeat (apply Forall_cons_2; [first [by apply ident_proper | by repeat split] |]).
  apply Forall_nil_2.
Qed.

Lemma join_layout_has_sep models_dir name tag :
  ident name = true → ident tag = true →
  lacks "/" (path.join models_dir (layout name tag)) = false.
Proof.
  intros Hn Ht. rewrite path_join_proper by (done || by apply layout_proper).
  rewrite !lacks_app. unfold layout.
  change (str.join "/" ["manifests"; "registry.ollama.ai"; "library"; name; tag])
    with ("manifests" +:+ "/" +:+ str.join "/" ["registry.ollama.ai"; "library"; name; tag]).
  rewrite !lacks_app. simpl. by rewrite !andb_false_r.
Qed.

Lemma resolve_one_sep models_dir v :
  lacks "/" v = false →
  resolve_one w models_dir v
  = if isfile w v then Ok v else Raise (KnownError ("File not found: " +:+ v)).
Proof.
  intros Hsep. apply resolve_one_literal.
  destruct (model_pattern_match v) as [[name tag]|] eqn:Hm; [| done].
  apply model_pattern_match_lacks_sep in Hm. congruence.
Qed.

End more_resolver_facts.

(** X1.  The pattern of line 142 accepts exactly the strings [name:tag] and
    [name:tag] followed by one newline, where [name] and [tag] are each one
    character of [a-zA-Z0-9] followed by characters of [a-zA-Z0-9._-]; the
    groups of the match are [name] and [tag], without the newline. *)
Theorem pattern_language (s name tag : string) :
  model_pattern_match s = Some (name, tag) ↔
  ident name = true ∧ ident tag = true ∧
  (s = name +:+ ":" +:+ tag ∨ s = name +:+ ":" +:+ tag +:+ String newline "").
Proof. apply model_pattern_match_Some. Qed.

(** X2.  A value that contains a slash is never taken for a reference: it
    is returned as it is when it is a regular file, and otherwise the
    [KnownError] names it, whatever [models_dir] is. *)
Theorem slash_means_path (w : world) (models_dir model_or_manifest : string) :
  lacks "/" model_or_manifest = false →
  resolve_one w models_dir model_or_manifest
  = if isfile w model_or_manifest then Ok model_or_manifest
    else Raise (KnownError ("File not found: " +:+ model_or_manifest)).
Proof. apply resolve_one_sep. Qed.

Lemma slash_means_path_witness :
  resolve_one sample_world "/nowhere" "./llama3:8b"
  = Raise (KnownError "File not found: ./llama3:8b").
Proof.
  pose proof (slash_means_path sample_world "/nowhere" "./llama3:8b") as H.
  vm_compute in H. vm_compute. exact (H eq_refl).
Defined.

(** X3.  Every path [resolve_manifests] returns is a regular file, and the
    returned list resolves to itself under any [models_dir]: a path found
    through a reference contains a slash, and a path given literally was
    not matched by the pattern. *)
Theorem resolve_manifests_fixpoint (w : world) (values outs : list string)
    (models_dir : string) :
  resolve_manifests w values models_dir = Ok outs →
  Forall (λ o, isfile w o = true) outs
  ∧ ∀ models_dir', resolve_manifests w outs models_dir' = Ok outs.
Proof.
  unfold resolve_manifests. intros (outs' & Heq & H)%gen_Ok. simpl in Heq. subst outs'.
  assert (Forall (λ o, isfile w o = true ∧
                       ∀ models_dir', resolve_one w models_dir' o = Ok o) outs) as Hall.
  { induction H as [|v o values outs Hv _ IH]; constructor; [| done].
    split; [by eapply resolve_one_isfile |]. intros models_dir'.
    pose proof (resolve_one_isfile w _ _ _ Hv) as Hfile.
    unfold resolve_one in Hv.
    destruct (model_pattern_match v) as [[name tag]|] eqn:Hm.
    - destruct (isfile w _) eqn:Hf; [| done]. injection Hv as <-.
      apply model_pattern_match_Some in Hm as (Hn & Ht & _).
      rewrite resolve_one_sep by (by apply join_layout_has_sep).
      by rewrite Hfile.
    - destruct (isfile w v) eqn:Hf; [| done]. injection Hv as <-.
      unfold resolve_one. by rewrite Hm, Hf. }
  split.
  - eapply Forall_impl; [exact Hall |]. by intros o [? _].
  - intros models_dir'. apply gen_Ok. exists outs. split; [done |].
    clear H. induction Hall as [|o outs [_ Ho] _ IH]; constructor; [apply Ho | done].
Qed.

Lemma resolve_manifests_fixpoint_witness :
  Forall (λ o, isfile sample_world o = true) [sample_manifest_path]
  ∧ ∀ models_dir', resolve_manifests sample_world [sample_manifest_path] models_dir'
                   = Ok [sample_manifest_path].
Proof.
  apply (resolve_manifests_fixpoint sample_world ["llama3:8b"] [sample_manifest_path]
           "/srv/models").
  vm_compute. reflexivity.
Defined.

(** ** The file set of a reference *)

Section reference_facts.
Context (w : world).

Lemma RootResolver_join cwd dir l :
  path.isabs cwd = true → length l = 5%nat → Forall proper l →
  RootResolver (path.abspath cwd (path.join dir l)) = path.abspath cwd dir.
Proof.
  intros Hcwd Hlen Hl.
  assert (l ≠ []) as Hne by (by intros ->).
  pose proof (isabs_initial_slashes _ (isabs_anchored cwd dir Hcwd)) as Hk.
  pose proof (norm_comps_ok (anchored cwd dir)) as Hcs.
  rewrite abspath_join, abspath_path_of by done.
  rewrite RootResolver_path_of.
  - rewrite <- Hlen. by rewrite drop_last_app.
  - done.
  - apply Forall_app. split; [done | by apply proper_comp_ok].
Qed.

Lemma relpath_join cwd dir l :
  path.isabs cwd = true → length l = 5%nat → Forall proper l →
  path.relpath cwd (path.abspath cwd (path.join dir l))
    (RootResolver (path.abspath cwd (path.join dir l)))
  = Ok (str.join "/" l).
Proof.
  intros Hcwd Hlen Hl.
  assert (l ≠ []) as Hne by (by intros ->).
  destruct (relpath_RootResolver cwd (path.join dir l) Hcwd)
    as (k & cs & Hk & Hcs & Habs & Hroot & Hrel & _).
  rewrite Habs, Hroot, Hrel. f_equal.
  assert (cs = norm_comps (anchored cwd dir) ++ l) as ->.
  { rewrite abspath_join in Habs by done.
    apply (f_equal path.nonempty_comps) in Habs.
    rewrite !nonempty_comps_path_of in Habs; [done | by apply proper_comp_ok |].
    apply Forall_app. split; [apply norm_comps_ok | by apply proper_comp_ok]. }
  rewrite length_app, Hlen.
  replace (length (norm_comps (anchored cwd dir)) + 5 - 5)%nat
    with (length (norm_comps (anchored cwd dir))) by lia.
  rewrite drop_app_length. by destruct l.
Qed.

(** The file list of a returned record starts with the relative path of
    the manifest. *)
Lemma get_ollama_manifest_data_files manifest fs :
  get_ollama_manifest_data w manifest = Ok fs →
  ∃ m rel,
    read_ollama_manifest w (path.abspath (getcwd w) manifest) = Ok m ∧
    path.relpath (getcwd w) (path.abspath (getcwd w) manifest)
      (RootResolver (path.abspath (getcwd w) manifest)) = Ok rel ∧
    ManifestData.files fs = rel :: blob_files m.
Proof.
  intros Hfs.
  destruct (read_ollama_manifest w (path.abspath (getcwd w) manifest)) as [m|e] eqn:Hread.
  - destruct (get_ollama_manifest_data_decoded w manifest m Hread) as (rel & Hrel & Heq).
    rewrite Heq in Hfs. exists m, rel. split_and!; [done | done |].
    destruct (check_files _ _ _); cbn [mbind result_bind] in Hfs; [| done].
    by injection Hfs as <-.
  - unfold get_ollama_manifest_data in Hfs. by rewrite Hread in Hfs.
Qed.

(** What a value the pattern accepts resolves to. *)
Lemma resolve_one_matched models_dir v manifest :
  is_Some (model_pattern_match v) → resolve_one w models_dir v = Ok manifest →
  ∃ name tag,
    ident name = true ∧ ident tag = true ∧
    manifest = path.join models_dir (layout name tag).
Proof.
  intros [[name tag] Hm] Hv. unfold resolve_one in Hv. rewrite Hm in Hv.
  destruct (isfile w _); [| done]. injection Hv as <-.
  apply model_pattern_match_Some in Hm as (Hn & Ht & _). by exists name, tag.
Qed.

Lemma check_single_ollama_root_same data r :
  data ≠ [] → Forall (λ d, ManifestData.root d = r) data →
  check_single_ollama_root data = Ok ().
Proof.
  intros Hne Hall. unfold check_single_ollama_root. fold (roots data).
  rewrite (roots_same data r), size_singleton by done.
  by rewrite bool_decide_eq_false_2 by (by intros []).
Qed.

End reference_facts.

(** X4.  A reference [name:tag] that resolves in [models_dir] and whose file
    set is built gives the absolute path of [models_dir] as root and
    [manifests/registry.ollama.ai/library/name/tag] as first file. *)
Theorem reference_file_set (w : world) (models_dir name tag manifest : string)
    (fs : ManifestData.t) :
  path.isabs (getcwd w) = true →
  ident name = true → ident tag = true →
  resolve_one w models_dir (name +:+ ":" +:+ tag) = Ok manifest →
  get_ollama_manifest_data w manifest = Ok fs →
  manifest = path.join models_dir (layout name tag)
  ∧ ManifestData.root fs = path.abspath (getcwd w) models_dir
  ∧ ∃ blobs,
      ManifestData.files fs
      = ("manifests/registry.ollama.ai/library/" +:+ name +:+ "/" +:+ tag) :: blobs.
Proof.
  intros Hcwd Hn Ht Hres Hfs.
  pose proof (resolve_one_reference w models_dir name tag Hn Ht) as Href.
  cbv zeta in Href. rewrite Href in Hres.
  destruct (isfile w _); [| done].
  assert (manifest = path.join models_dir (layout name tag)) as -> by congruence.
  clear Hres Href.
  pose proof (layout_proper name tag Hn Ht) as Hl.
  split_and!; [done | |].
  - rewrite (get_ollama_manifest_data_root _ _ _ Hfs).
    exact (RootResolver_join (getcwd w) models_dir (layout name tag) Hcwd eq_refl Hl).
  - destruct (get_ollama_manifest_data_files w _ _ Hfs) as (m & rel & _ & Hrel & Hfiles).
    rewrite (relpath_join (getcwd w) models_dir (layout name tag) Hcwd eq_refl Hl) in Hrel.
    assert (rel = str.join "/" (layout name tag)) as -> by congruence.
    exists (blob_files m). exact Hfiles.
Qed.

Lemma reference_file_set_witness :
  sample_manifest_path = path.join "/srv/models" (layout "llama3" "8b")
  ∧ ManifestData.root sample_data = path.abspath (getcwd sample_world) "/srv/models"
  ∧ ∃ blobs,
      ManifestData.files sample_data
      = ("manifests/registry.ollama.ai/library/" +:+ "llama3" +:+ "/" +:+ "8b") :: blobs.
Proof.
  evaluated (reference_file_set sample_world "/srv/models" "llama3" "8b"
               sample_manifest_path sample_data).
Defined.

(** X5.  When every value is taken for a reference, every file set that is
    built has the absolute path of [models_dir] as root, so the check of
    [list_command] passes and the files are printed. *)
Theorem list_of_references (w : world) (models_dir : string)
    (values manifests : list string) (data : list ManifestData.t) :
  path.isabs (getcwd w) = true →
  values ≠ [] →
  Forall (λ v, is_Some (model_pattern_match v)) values →
  resolve_manifests w values models_dir = Ok manifests →
  get_ollama_manifests_data w manifests = Ok data →
  Forall (λ d, ManifestData.root d = path.abspath (getcwd w) models_dir) data
  ∧ check_single_ollama_root data = Ok ()
  ∧ list_command w manifests = (list_output data, Ok ()).
Proof.
  intros Hcwd Hne Hall Hres Hdata.
  unfold resolve_manifests in Hres. apply gen_Ok in Hres as (outs & Heq & Hres).
  simpl in Heq. subst outs.
  pose proof Hdata as Hdata2. apply get_ollama_manifests_data_Ok in Hdata2.
  assert (Forall (λ d, ManifestData.root d = path.abspath (getcwd w) models_dir) data)
    as Hroots.
  { clear Hne Hdata. revert data Hdata2.
    induction Hres as [|v manifest values manifests Hv _ IH]; intros data Hdata2.
    - inversion Hdata2. constructor.
    - inversion Hdata2 as [|? fs ? data' Hfs Hrest]; subst.
      inversion_clear Hall as [|?? Hmatch Hall'].
      constructor; [| by apply IH].
      destruct (resolve_one_matched w models_dir v manifest Hmatch Hv)
        as (name & tag & Hn & Ht & ->).
      rewrite (get_ollama_manifest_data_root _ _ _ Hfs).
      exact (RootResolver_join (getcwd w) models_dir (layout name tag) Hcwd eq_refl
               (layout_proper name tag Hn Ht)). }
  assert (data ≠ []) as Hdne.
  { intros ->. inversion Hdata2; subst. inversion Hres; subst. done. }
  pose proof (check_single_ollama_root_same data _ Hdne Hroots) as Hcheck.
  split_and!; [done | done |].
  by rewrite (list_command_built w manifests data Hdata), Hcheck.
Qed.

Lemma list_of_references_witness :
  Forall (λ d, ManifestData.root d = path.abspath (getcwd sample_world) "/srv/models")
    [sample_data; sample_data]
  ∧ check_single_ollama_root [sample_data; sample_data] = Ok ()
  ∧ list_command sample_world [sample_manifest_path; sample_manifest_path]
    = (list_output [sample_data; sample_data], Ok ()).
Proof.
  assert (["llama3:8b"; "llama3:8b"] ≠ []) as Hne by done.
  assert (Forall (λ v, is_Some (model_pattern_match v)) ["llama3:8b"; "llama3:8b"])
    as Hall by (repeat constructor; vm_compute; eauto).
  evaluated (λ H1 H2 H3,
    list_of_references sample_world "/srv/models" ["llama3:8b"; "llama3:8b"]
      [sample_manifest_path; sample_manifest_path] [sample_data; sample_data]
      H1 Hne Hall H2 H3).
Defined.

(** ** More on the builder *)

(** X6.  The root of a returned file set is an absolute path in normal
    form: [abspath] and [normpath] leave it as it is. *)
Theorem root_is_normalised (w : world) (manifest : string) (fs : ManifestData.t) :
  path.isabs (getcwd w) = true →
  get_ollama_manifest_data w manifest = Ok fs →
  path.isabs (ManifestData.root fs) = true
  ∧ path.normpath (ManifestData.root fs) = ManifestData.root fs
  ∧ path.abspath (getcwd w) (ManifestData.root fs) = ManifestData.root fs.
Proof.
  intros Hcwd Hfs. rewrite (get_ollama_manifest_data_root _ _ _ Hfs).
  pose proof (isabs_anchored (getcwd w) manifest Hcwd) as Habs.
  pose proof (initial_slashes_cases _ Habs) as Hk.
  pose proof (norm_comps_proper _ Habs) as Hcs.
  rewrite abspath_path_of by done.
  rewrite RootResolver_path_of by (by apply proper_comp_ok || lia).
  assert (Forall proper (drop_last 5 (norm_comps (anchored (getcwd w) manifest))))
    as Hcs' by by apply Forall_drop_last.
  split_and!.
  - apply isabs_path_of. lia.
  - by apply normpath_path_of.
  - by apply abspath_path_of_id.
Qed.

Lemma root_is_normalised_witness :
  path.isabs (ManifestData.root sample_data) = true
  ∧ path.normpath (ManifestData.root sample_data) = ManifestData.root sample_data
  ∧ path.abspath (getcwd sample_world) (ManifestData.root sample_data)
    = ManifestData.root sample_data.
Proof.
  evaluated (root_is_normalised sample_world sample_manifest_path sample_data).
Defined.

(** X7.  A file set is returned only for a manifest that is itself a
    regular file: the first entry of the list, joined with the root, is the
    absolute path of the manifest, and the loop of lines 73-76 tests it
    (the file-system root, which is its own parent, apart). *)
Theorem built_manifest_is_file (w : world) (manifest : string) (fs : ManifestData.t) :
  let manifest_absolute_path := path.abspath (getcwd w) manifest in
  path.isabs (getcwd w) = true →
  path.dirname manifest_absolute_path ≠ manifest_absolute_path →
  get_ollama_manifest_data w manifest = Ok fs →
  isfile w manifest_absolute_path = true.
Proof.
  intros abs Hcwd Hdir Hfs.
  pose proof (get_ollama_manifest_data_present w manifest fs Hfs) as Hpresent.
  destruct (get_ollama_manifest_data_files w manifest fs Hfs) as (m & rel & _ & Hrel & Hfiles).
  rewrite Hfiles in Hpresent. inversion_clear Hpresent as [|?? Hrel_present _].
  unfold present in Hrel_present.
  rewrite (get_ollama_manifest_data_root _ _ _ Hfs) in Hrel_present.
  destruct (relpath_RootResolver (getcwd w) manifest Hcwd)
    as (k & cs & Hk & Hcs & Habs & Hroot & Hrel' & Hjoin).
  fold abs in Habs, Hrel, Hrel_present.
  rewrite Habs in Hrel, Hrel_present, Hdir |- *. rewrite Hroot in Hrel, Hrel_present.
  assert (cs ≠ []) as Hne.
  { intros ->. apply Hdir. unfold path_of. simpl. rewrite sapp_nil_r.
    apply dirname_slashes. }
  rewrite Hrel' in Hrel. injection Hrel as <-.
  rewrite <- (Hjoin Hne) at 1.
  destruct (drop (length cs - 5) cs) eqn:Hd; [| done].
  apply (f_equal length) in Hd. rewrite length_drop in Hd.
  destruct cs; [done | simpl in Hd; lia].
Qed.

Lemma built_manifest_is_file_witness :
  isfile sample_world (path.abspath (getcwd sample_world) sample_manifest_path) = true.
Proof.
  assert (path.dirname (path.abspath (getcwd sample_world) sample_manifest_path)
          ≠ path.abspath (getcwd sample_world) sample_manifest_path) as Hdir
    by (vm_compute; discriminate).
  assert (path.isabs (getcwd sample_world) = true) as Hcwd by (vm_compute; reflexivity).
  assert (get_ollama_manifest_data sample_world sample_manifest_path = Ok sample_data)
    as Hfs by (vm_compute; reflexivity).
  exact (built_manifest_is_file sample_world sample_manifest_path sample_data
           Hcwd Hdir Hfs).
Defined.

(** X8.  [get_ollama_manifests_data] returns one file set for each manifest,
    in the order of the manifests, exactly when every manifest can be
    built; otherwise it raises the exception of the first manifest that
    cannot, whatever comes after it. *)
Theorem get_ollama_manifests_data_order (w : world) (manifests : list string) :
  (∀ data,
      get_ollama_manifests_data w manifests = Ok data ↔
      Forall2 (λ manifest fs, get_ollama_manifest_data w manifest = Ok fs) manifests data)
  ∧ (∀ data, get_ollama_manifests_data w manifests = Ok data →
             length data = length manifests)
  ∧ (∀ pre manifest post e,
      manifests = pre ++ manifest :: post →
      Forall (λ x, ∃ fs, get_ollama_manifest_data w x = Ok fs) pre →
      get_ollama_manifest_data w manifest = Raise e →
      get_ollama_manifests_data w manifests = Raise e).
Proof.
  split_and!.
  - intros data. apply get_ollama_manifests_data_Ok.
  - intros data H%get_ollama_manifests_data_Ok. symmetry. by eapply Forall2_length.
  - intros pre manifest post e -> Hpre He.
    induction Hpre as [|x pre [fs Hx] _ IH];
      cbn [app get_ollama_manifests_data]; [by rewrite He |].
    rewrite Hx. result_simpl. by rewrite IH.
Qed.

Lemma get_ollama_manifests_data_order_witness :
  get_ollama_manifests_data broken_world
    [sample_manifest_path; "/srv/models/manifests/registry.ollama.ai/library/llama3/9b"]
  = Raise (KnownError "File not found: /srv/models/blobs/sha256-b2").
Proof.
  apply (proj2 (proj2 (get_ollama_manifests_data_order broken_world
      [sample_manifest_path; "/srv/models/manifests/registry.ollama.ai/library/llama3/9b"]))
    [] sample_manifest_path
    ["/srv/models/manifests/registry.ollama.ai/library/llama3/9b"]).
  - reflexivity.
  - constructor.
  - vm_compute. reflexivity.
Defined.

(** ** More on the commands *)

Section trace_facts.
Context (w : world).

Lemma elem_of_concat_map {A B} (f : A → list B) (l : list A) (y : B) :
  y ∈ concat (map f l) ↔ ∃ x, x ∈ l ∧ y ∈ f x.
Proof.
  induction l as [|a l IH]; simpl.
  - split; [by intros ?%elem_of_nil | by intros (x & ?%elem_of_nil & _)].
  - rewrite elem_of_app, IH. split.
    + intros [Hy | (x & Hx & Hy)]; [exists a | exists x]; split; (done || by constructor).
    + intros (x & [-> | Hx]%elem_of_cons & Hy); [by left | right; eauto].
Qed.

Lemma concat_map_singleton {A B} (f : A → B) (l : list A) :
  concat (map (λ x, [f x]) l) = map f l.
Proof. induction l as [|a l IH]; simpl; [done | by rewrite IH]. Qed.

Lemma list_output_all_files data : list_output data = map Print (all_files data).
Proof.
  unfold list_output, all_files. induction data as [|d data IH]; simpl; [done |].
  by rewrite IH, map_app, concat_map_singleton.
Qed.

Lemma entries_app t t' : entries (t ++ t') = entries t ++ entries t'.
Proof. induction t as [|[] t IH]; simpl; by rewrite ?IH. Qed.

(** The archive entries of a list of file sets. *)
Lemma entries_tar_output archive_path data :
  entries (tar_output archive_path data)
  = concat (map (λ d, map (λ file, (path.join (ManifestData.root d) [file], file))
                        (ManifestData.files d)) data).
Proof.
  unfold tar_output. cbn [entries]. rewrite entries_app, app_nil_r.
  induction data as [|d data IH]; [done |].
  cbn [map concat]. rewrite entries_app, IH. f_equal.
  induction (ManifestData.files d) as [|f fl IHf]; [done |].
  cbn [map concat app entries]. by rewrite IHf.
Qed.

Lemma entries_zip_output archive_path data :
  entries (zip_output archive_path data)
  = concat (map (λ d, map (λ file, (path.join (ManifestData.root d) [file], file))
                        (ManifestData.files d)) data).
Proof.
  unfold zip_output. cbn [entries]. rewrite entries_app, app_nil_r.
  induction data as [|d data IH]; [done |].
  cbn [map concat]. rewrite entries_app, IH. f_equal.
  induction (ManifestData.files d) as [|f fl IHf]; [done |].
  cbn [map concat app entries]. by rewrite IHf.
Qed.


(** One root for all the file sets when the set of roots has one element. *)
Lemma roots_single data :
  size (roots data) = 1%nat → ∃ r, Forall (λ d, ManifestData.root d = r) data.
Proof.
  intros [r Hr]%size_1_elem_of. exists r. apply Forall_forall. intros d Hd.
  assert (ManifestData.root d ∈ roots data) as Hin.
  { unfold roots. rewrite elem_of_list_to_set, list_elem_of_fmap. eauto. }
  rewrite Hr in Hin. by apply elem_of_singleton in Hin.
Qed.

Lemma check_single_ollama_root_Ok data :
  check_single_ollama_root data = Ok () → size (roots data) = 1%nat.
Proof.
  unfold check_single_ollama_root. fold (roots data).
  destruct (decide (size (roots data) = 1%nat)) as [Hs|Hs]; [done |].
  by rewrite (bool_decide_eq_true_2 _ Hs).
Qed.

(** Every file of a built list of file sets was found under its root. *)
Lemma all_files_present manifests data :
  get_ollama_manifests_data w manifests = Ok data →
  Forall (λ d, Forall (present w (ManifestData.root d)) (ManifestData.files d)) data.
Proof.
  intros H%get_ollama_manifests_data_Ok.
  induction H as [|manifest d manifests data Hd _ IH]; constructor; [| done].
  by eapply get_ollama_manifest_data_present.
Qed.

Lemma get_ollama_manifests_data_app manifests1 manifests2 data1 data2 :
  get_ollama_manifests_data w manifests1 = Ok data1 →
  get_ollama_manifests_data w manifests2 = Ok data2 →
  get_ollama_manifests_data w (manifests1 ++ manifests2) = Ok (data1 ++ data2).
Proof.
  intros H1%get_ollama_manifests_data_Ok H2%get_ollama_manifests_data_Ok.
  apply get_ollama_manifests_data_Ok. by apply Forall2_app.
Qed.

Lemma copy_command_Ok manifests destination t :
  copy_command w manifests destination = (t, Ok ()) →
  ∃ data, get_ollama_manifests_data w manifests = Ok data ∧
          t = copy_output destination data.
Proof.
  destruct (get_ollama_manifests_data w manifests) as [data|e] eqn:Hdata.
  - rewrite (copy_command_built w manifests destination data Hdata).
    intros [= <-]. eauto.
  - unfold copy_command. rewrite Hdata. by result_simpl.
Qed.

(** The effects of [copy_command], file after file. *)
Lemma copy_output_rooted_files destination data :
  copy_output destination data
  = concat (map (λ '(root, file),
      [ Makedirs (path.dirname (path.join destination [file]));
        Copy2 (path.join root [file]) (path.join destination [file]) ])
      (rooted_files data)).
Proof.
  unfold copy_output, rooted_files. induction data as [|d data IH]; [done |].
  cbn [map concat]. rewrite map_app, concat_app, <- IH. f_equal.
  by rewrite map_map.
Qed.

Lemma rooted_files_present manifests data :
  get_ollama_manifests_data w manifests = Ok data →
  Forall (λ '(root, file), isfile w (path.join root [file]) = true) (rooted_files data).
Proof.
  intros Hpresent%all_files_present. unfold rooted_files.
  induction Hpresent as [|d data Hd _ IH]; [constructor |].
  cbn [map concat]. apply Forall_app. split; [| done].
  clear IH. induction Hd as [|f fl Hf _ IHf]; constructor; done.
Qed.

Lemma snd_rooted_files data : map snd (rooted_files data) = all_files data.
Proof.
  unfold rooted_files, all_files. induction data as [|d data IH]; [done |].
  cbn [map concat]. rewrite map_app, IH, map_map. simpl. by rewrite map_id.
Qed.

End trace_facts.

(** X9.  When [list_command] ends normally it has printed, and only
    printed, the files of every file set in order, and there is one root
    under which every printed line is a regular file. *)
Theorem list_prints_existing_files (w : world) (manifests : list string)
    (t : list effect) :
  list_command w manifests = (t, Ok ()) →
  ∃ root data,
    get_ollama_manifests_data w manifests = Ok data ∧
    Forall (λ d, ManifestData.root d = root) data ∧
    t = map Print (all_files data) ∧
    Forall (λ line, isfile w (path.join root [line]) = true) (all_files data).
Proof.
  intros Hlist.
  destruct (get_ollama_manifests_data w manifests) as [data|e] eqn:Hdata.
  2:{ unfold list_command in Hlist. rewrite Hdata in Hlist. by result_simpl in Hlist. }
  rewrite (list_command_built w manifests data Hdata) in Hlist.
  destruct (check_single_ollama_root data) as [[]|e] eqn:Hcheck; [| done].
  injection Hlist as <-.
  destruct (roots_single data (check_single_ollama_root_Ok data Hcheck)) as [root Hroot].
  exists root, data. split_and!; [done | done | apply list_output_all_files |].
  pose proof (all_files_present w manifests data Hdata) as Hpresent.
  unfold all_files. clear Hdata Hcheck.
  induction Hpresent as [|d data Hd _ IH]; [constructor |].
  inversion_clear Hroot as [|?? Hr Hroot']. subst root.
  cbn [map concat]. apply Forall_app. split; [exact Hd | by apply IH].
Qed.

Lemma list_prints_existing_files_witness :
  ∃ root data,
    get_ollama_manifests_data sample_world [sample_manifest_path] = Ok data ∧
    Forall (λ d, ManifestData.root d = root) data ∧
    [ Print "manifests/registry.ollama.ai/library/llama3/8b"; Print "blobs/sha256-c0";
      Print "blobs/sha256-a1"; Print "blobs/sha256-b2" ] = map Print (all_files data) ∧
    Forall (λ line, isfile sample_world (path.join root [line]) = true) (all_files data).
Proof.
  apply (list_prints_existing_files sample_world [sample_manifest_path]).
  vm_compute. reflexivity.
Defined.

(** X10.  When [copy_command] ends normally its effects are, for each file
    of each file set in order, the making of the directory of the
    destination followed at once by the copy of the file, from under the
    root of its file set to the destination under the same relative path;
    every file it copies was found by the check. *)
Theorem copy_reads_checked_files (w : world) (manifests : list string)
    (destination : string) (t : list effect) :
  copy_command w manifests destination = (t, Ok ()) →
  ∃ data,
    get_ollama_manifests_data w manifests = Ok data ∧
    map snd (rooted_files data) = concat (map ManifestData.files data) ∧
    t = concat (map (λ '(root, file),
          [ Makedirs (path.dirname (path.join destination [file]));
            Copy2 (path.join root [file]) (path.join destination [file]) ])
          (rooted_files data)) ∧
    Forall (λ '(root, file), isfile w (path.join root [file]) = true) (rooted_files data).
Proof.
  intros (data & Hdata & ->)%copy_command_Ok. exists data. split_and!.
  - done.
  - apply snd_rooted_files.
  - apply copy_output_rooted_files.
  - by eapply rooted_files_present.
Qed.

Lemma copy_reads_checked_files_witness :
  ∃ data,
    get_ollama_manifests_data sample_world [sample_manifest_path] = Ok data ∧
    map snd (rooted_files data) = concat (map ManifestData.files data) ∧
    [ Makedirs "/tmp/out/manifests/registry.ollama.ai/library/llama3";
      Copy2 "/srv/models/manifests/registry.ollama.ai/library/llama3/8b"
        "/tmp/out/manifests/registry.ollama.ai/library/llama3/8b";
      Makedirs "/tmp/out/blobs";
      Copy2 "/srv/models/blobs/sha256-c0" "/tmp/out/blobs/sha256-c0";
      Makedirs "/tmp/out/blobs";
      Copy2 "/srv/models/blobs/sha256-a1" "/tmp/out/blobs/sha256-a1";
      Makedirs "/tmp/out/blobs";
      Copy2 "/srv/models/blobs/sha256-b2" "/tmp/out/blobs/sha256-b2" ]
    = concat (map (λ '(root, file),
          [ Makedirs (path.dirname (path.join "/tmp/out" [file]));
            Copy2 (path.join root [file]) (path.join "/tmp/out" [file]) ])
          (rooted_files data)) ∧
    Forall (λ '(root, file), isfile sample_world (path.join root [file]) = true)
      (rooted_files data).
Proof.
  apply (copy_reads_checked_files sample_world [sample_manifest_path] "/tmp/out").
  vm_compute. reflexivity.
Defined.



(** X12.  The file sets of two lists of manifests given together are the
    file sets of the first list followed by those of the second, and the
    first exception wins: nothing is merged, so a manifest given twice has
    its file set twice (the TODO of lines 119 and 130).  Whenever a command
    ends normally on each of the two lists and on both together, its calls
    on both together are its calls on the first followed by its calls on
    the second. *)
Theorem commands_do_not_deduplicate (w : world) (manifests1 manifests2 : list string) :
  get_ollama_manifests_data w (manifests1 ++ manifests2)
  = (data1 ← get_ollama_manifests_data w manifests1;
     data2 ← get_ollama_manifests_data w manifests2;
     Ok (data1 ++ data2))
  ∧ (∀ destination t1 t2 t,
      copy_command w manifests1 destination = (t1, Ok ()) →
      copy_command w manifests2 destination = (t2, Ok ()) →
      copy_command w (manifests1 ++ manifests2) destination = (t, Ok ()) →
      t = t1 ++ t2)
  ∧ (∀ archive_path t1 t2 t,
      tar_command w manifests1 archive_path = (t1, Ok ()) →
      tar_command w manifests2 archive_path = (t2, Ok ()) →
      tar_command w (manifests1 ++ manifests2) archive_path = (t, Ok ()) →
      entries t = entries t1 ++ entries t2)
  ∧ (∀ archive_path t1 t2 t,
      zip_command w manifests1 archive_path = (t1, Ok ()) →
      zip_command w manifests2 archive_path = (t2, Ok ()) →
      zip_command w (manifests1 ++ manifests2) archive_path = (t, Ok ()) →
      entries t = entries t1 ++ entries t2).
Proof.
  assert (get_ollama_manifests_data w (manifests1 ++ manifests2)
          = (data1 ← get_ollama_manifests_data w manifests1;
             data2 ← get_ollama_manifests_data w manifests2;
             Ok (data1 ++ data2))) as Hlaw.
  { induction manifests1 as [|manifest manifests1 IH];
      cbn [app get_ollama_manifests_data]; result_simpl.
    - by destruct (get_ollama_manifests_data w manifests2).
    - destruct (get_ollama_manifest_data w manifest); result_simpl; [| done].
      rewrite IH.
      destruct (get_ollama_manifests_data w manifests1); result_simpl; [| done].
      by destruct (get_ollama_manifests_data w manifests2). }
  split_and!; [done | | |].
  - intros destination t1 t2 t H1 H2 H12.
    destruct (command_returns_built w manifests1 _ t1 () H1) as [data1 Hd1].
    destruct (command_returns_built w manifests2 _ t2 () H2) as [data2 Hd2].
    pose proof (get_ollama_manifests_data_app w _ _ _ _ Hd1 Hd2) as Hd12.
    rewrite (copy_command_built w _ destination _ Hd1) in H1.
    rewrite (copy_command_built w _ destination _ Hd2) in H2.
    rewrite (copy_command_built w _ destination _ Hd12) in H12.
    injection H1 as <-. injection H2 as <-. injection H12 as <-.
    unfold copy_output. by rewrite map_app, concat_app.
  - intros archive_path t1 t2 t H1 H2 H12.
    destruct (command_returns_built w manifests1 _ t1 () H1) as [data1 Hd1].
    destruct (command_returns_built w manifests2 _ t2 () H2) as [data2 Hd2].
    pose proof (get_ollama_manifests_data_app w _ _ _ _ Hd1 Hd2) as Hd12.
    rewrite (tar_command_built w _ archive_path _ Hd1) in H1.
    rewrite (tar_command_built w _ archive_path _ Hd2) in H2.
    rewrite (tar_command_built w _ archive_path _ Hd12) in H12.
    injection H1 as <-. injection H2 as <-. injection H12 as <-.
    rewrite !entries_tar_output. by rewrite map_app, concat_app.
  - intros archive_path t1 t2 t H1 H2 H12.
    destruct (command_returns_built w manifests1 _ t1 () H1) as [data1 Hd1].
    destruct (command_returns_built w manifests2 _ t2 () H2) as [data2 Hd2].
    pose proof (get_ollama_manifests_data_app w _ _ _ _ Hd1 Hd2) as Hd12.
    rewrite (zip_command_built w _ archive_path _ Hd1) in H1.
    rewrite (zip_command_built w _ archive_path _ Hd2) in H2.
    rewrite (zip_command_built w _ archive_path _ Hd12) in H12.
    injection H1 as <-. injection H2 as <-. injection H12 as <-.
    rewrite !entries_zip_output. by rewrite map_app, concat_app.
Qed.

Lemma commands_do_not_deduplicate_witness :
  get_ollama_manifests_data sample_world ([sample_manifest_path] ++ [sample_manifest_path])
  = Ok [sample_data; sample_data]
  ∧ entries (tar_output "-" [sample_data; sample_data])
    = entries (tar_output "-" [sample_data]) ++ entries (tar_output "-" [sample_data]).
Proof.
  split.
  - rewrite (proj1 (commands_do_not_deduplicate sample_world
                      [sample_manifest_path] [sample_manifest_path])).
    vm_compute. reflexivity.
  - apply (proj1 (proj2 (proj2 (commands_do_not_deduplicate sample_world
                      [sample_manifest_path] [sample_manifest_path]))) "-");
      vm_compute; reflexivity.
Defined.

Lemma resolve_manifests_isfile (w : world) (values manifests : list string)
    (models_dir : string) :
  resolve_manifests w values models_dir = Ok manifests →
  Forall (λ manifest, isfile w manifest = true) manifests.
Proof.
  unfold resolve_manifests. intros (outs & Heq & Hres)%gen_Ok.
  simpl in Heq. subst outs.
  induction Hres as [|v o values outs Hv _ IH]; constructor; [| done].
  by eapply resolve_one_isfile.
Qed.

(** X13.  [main] acts only after every reference is resolved and every file
    set is built: a [KnownError] of the resolver or of the builder ends it
    with that message and without any effect, and whenever it has had an
    effect every resolved manifest is a regular file and has its file set. *)
Theorem main_acts_after_checks (w : world) (a : args) :
  (∀ msg,
      resolve_manifests w (args_model a) (args_models_dir a) = Raise (KnownError msg) →
      main w a = ([], SysExit msg))
  ∧ (∀ manifests msg,
      resolve_manifests w (args_model a) (args_models_dir a) = Ok manifests →
      get_ollama_manifests_data w manifests = Raise (KnownError msg) →
      main w a = ([], SysExit msg))
  ∧ ((main w a).1 ≠ [] →
      ∃ manifests data,
        resolve_manifests w (args_model a) (args_models_dir a) = Ok manifests ∧
        Forall (λ manifest, isfile w manifest = true) manifests ∧
        get_ollama_manifests_data w manifests = Ok data).
Proof.
  destruct (main_checks_first w a) as [H1 H2]. split_and!; [done | done |].
  unfold main.
  destruct (resolve_manifests w (args_model a) (args_models_dir a))
    as [manifests|e] eqn:Hres; result_simpl.
  2:{ by destruct e. }
  destruct (get_ollama_manifests_data w manifests) as [data|e] eqn:Hdata.
  - intros _. exists manifests, data. split_and!; [done | | done].
    by eapply resolve_manifests_isfile.
  - destruct (commands_not_built w manifests "" "" "" e Hdata) as (Hl & _).
    destruct (args_command a) as [|to|archive|archive].
    + rewrite Hl. by destruct e.
    + rewrite (proj1 (proj2 (commands_not_built w manifests to "" "" e Hdata))).
      by destruct e.
    + rewrite (proj1 (proj2 (proj2 (commands_not_built w manifests "" archive "" e Hdata)))).
      by destruct e.
    + rewrite (proj2 (proj2 (proj2 (commands_not_built w manifests "" "" archive e Hdata)))).
      by destruct e.
Qed.

Lemma main_acts_after_checks_witness :
  main broken_world (Args (CmdTar "-") ["llama3:8b"] "/srv/models")
  = ([], SysExit "File not found: /srv/models/blobs/sha256-b2").
Proof.
  apply (proj1 (proj2 (main_acts_after_checks broken_world
                         (Args (CmdTar "-") ["llama3:8b"] "/srv/models")))
           [sample_manifest_path]);
    vm_compute; reflexivity.
Defined.

(** X14.  When the first manifest that cannot be built is one that cannot
    be read or decoded, the exception of [open] or of the JSON decoder is
    not turned into a [KnownError]: it leaves [get_ollama_manifest_data]
    and [get_ollama_manifests_data] as it is, before any file of that
    manifest is tested, and [main] ends with it uncaught and without any
    effect. *)
Theorem undecodable_manifest_is_uncaught (w : world) (a : args)
    (pre : list string) (manifest : string) (post : list string) (e : exception) :
  resolve_manifests w (args_model a) (args_models_dir a) = Ok (pre ++ manifest :: post) →
  Forall (λ x, ∃ fs, get_ollama_manifest_data w x = Ok fs) pre →
  read_ollama_manifest w (path.abspath (getcwd w) manifest) = Raise e →
  (∀ msg, e ≠ KnownError msg) →
  get_ollama_manifest_data w manifest = Raise e
  ∧ get_ollama_manifests_data w (pre ++ manifest :: post) = Raise e
  ∧ main w a = ([], Uncaught e).
Proof.
  intros Hres Hpre Hread Hnot.
  assert (get_ollama_manifest_data w manifest = Raise e) as Hget.
  { unfold get_ollama_manifest_data. by rewrite Hread. }
  pose proof (get_ollama_manifests_data_first_failure w pre manifest post e Hpre Hget)
    as Hdata.
  split_and!; [done | done |].
  unfold main. rewrite Hres. result_simpl.
  destruct (args_command a) as [|to|archive|archive].
  - rewrite (proj1 (commands_not_built w _ "" "" "" e Hdata)).
    destruct e; [by destruct (Hnot msg) | done | done].
  - rewrite (proj1 (proj2 (commands_not_built w _ to "" "" e Hdata))).
    destruct e; [by destruct (Hnot msg) | done | done].
  - rewrite (proj1 (proj2 (proj2 (commands_not_built w _ "" archive "" e Hdata)))).
    destruct e; [by destruct (Hnot msg) | done | done].
  - rewrite (proj2 (proj2 (proj2 (commands_not_built w _ "" "" archive e Hdata)))).
    destruct e; [by destruct (Hnot msg) | done | done].
Qed.

Lemma undecodable_manifest_is_uncaught_witness :
  main garbled_world (Args (CmdCopy "/tmp/out") ["llama3:8b"; "llama3:9b"] "/srv/models")
  = ([], Uncaught (OtherError "JSONDecodeError")).
Proof.
  apply (undecodable_manifest_is_uncaught garbled_world
           (Args (CmdCopy "/tmp/out") ["llama3:8b"; "llama3:9b"] "/srv/models")
           [sample_manifest_path] garbled_manifest_path []
           (OtherError "JSONDecodeError")).
  - vm_compute. reflexivity.
  - constructor; [| constructor]. exists sample_data. vm_compute. reflexivity.
  - vm_compute. reflexivity.
  - discriminate.
Defined.

(** ** The default store *)

(** X15.  [get_ollama_models_dir] returns [OLLAMA_MODELS] when it is set and
    not empty, on every platform; an empty value is treated like an unset
    one; the result is never the empty string; and without the variable a
    platform other than [win32] and [darwin] gets
    [/usr/share/ollama/.ollama/models]. *)
Theorem models_dir_default (p : platform) :
  let unset := Platform (λ _, None) (sys_platform p) (expanduser p) in
  (∀ v, environ_get p "OLLAMA_MODELS" = Some v → v ≠ "" → get_ollama_models_dir p = v)
  ∧ (environ_get p "OLLAMA_MODELS" = Some "" →
     get_ollama_models_dir p = get_ollama_models_dir unset)
  ∧ str.is_empty (get_ollama_models_dir p) = false
  ∧ (sys_platform p ∉ ["win32"; "darwin"] →
     get_ollama_models_dir unset = "/usr/share/ollama/.ollama/models").
Proof.
  intros unset. split_and!.
  - intros v Hv Hne. unfold get_ollama_models_dir. rewrite Hv. by destruct v.
  - intros Hv. unfold get_ollama_models_dir. by rewrite Hv.
  - assert (str.is_empty
              (if bool_decide (sys_platform p ∈ ["win32"; "darwin"])
               then path.join (expanduser p "~") [".ollama"; "models"]
               else "/usr/share/ollama/.ollama/models") = false) as Hdefault.
    { case_bool_decide; [| done].
      rewrite path_join_proper by (done || by repeat constructor).
      rewrite !is_empty_app. simpl. by rewrite !andb_false_r. }
    unfold get_ollama_models_dir.
    destruct (environ_get p "OLLAMA_MODELS") as [[|c v]|]; done.
  - intros Hp. unfold get_ollama_models_dir, unset. simpl.
    by rewrite bool_decide_eq_false_2.
Qed.

Lemma models_dir_default_witness :
  get_ollama_models_dir
    (Platform (λ k, if bool_decide (k = "OLLAMA_MODELS") then Some "/srv/models" else None)
       "darwin" (λ _, "/Users/user"))
  = "/srv/models"
  ∧ get_ollama_models_dir (Platform (λ _, None) "linux" (λ _, "/home/user"))
    = "/usr/share/ollama/.ollama/models".
Proof.
  split.
  - apply (proj1 (models_dir_default
      (Platform (λ k, if bool_decide (k = "OLLAMA_MODELS") then Some "/srv/models" else None)
         "darwin" (λ _, "/Users/user"))) "/srv/models"); [vm_compute; reflexivity | done].
  - apply (proj2 (proj2 (proj2 (models_dir_default
      (Platform (λ _, None) "linux" (λ _, "/home/user")))))).
    vm_compute. intros H. by repeat (apply elem_of_cons in H as [H | H]; [done |]);
      apply elem_of_nil in H.
Defined.

(** X16.  For a [models_dir] that is not empty and does not itself end with
    a slash, one slash added at its end changes nothing: the same manifests
    are returned and the same exceptions raised, with the same messages. *)
Theorem models_dir_trailing_slash (w : world) (values : list string) (models_dir : string) :
  models_dir ≠ "" → str.endswith "/" models_dir = false →
  resolve_manifests w values (models_dir +:+ "/") = resolve_manifests w values models_dir.
Proof.
  intros Hne Hend.
  assert (∀ v, resolve_one w (models_dir +:+ "/") v = resolve_one w models_dir v) as Hone.
  { intros v. unfold resolve_one.
    destruct (model_pattern_match v) as [[name tag]|] eqn:Hm; [| done].
    apply model_pattern_match_Some in Hm as (Hn & Ht & _).
    pose proof (layout_proper name tag Hn Ht) as Hl.
    change ["manifests"; "registry.ollama.ai"; "library"; name; tag] with (layout name tag).
    rewrite !(path_join_proper _ (layout name tag)) by done.
    rewrite endswith_app by done. change (str.endswith path.sep "/") with true.
    rewrite orb_true_r. change path.sep with "/"%char. rewrite Hend, orb_false_r.
    destruct models_dir as [|c d]; [done |]. simpl str.is_empty. cbv iota.
    by rewrite !sapp_assoc, sapp_nil_l. }
  unfold resolve_manifests. generalize (@nil string).
  induction values as [|v values IH]; intros acc; [done |].
  cbn [gen]. rewrite Hone. destruct (resolve_one w models_dir v); [apply IH | done].
Qed.

Lemma models_dir_trailing_slash_witness :
  resolve_manifests sample_world ["llama3:8b"] ("/srv/models" +:+ "/")
  = resolve_manifests sample_world ["llama3:8b"] "/srv/models".
Proof.
  apply (models_dir_trailing_slash sample_world ["llama3:8b"] "/srv/models");
    [discriminate | vm_compute; reflexivity].
Defined.

(** ** Spellings of a manifest path and sizes *)

(** X17.  The file set depends on the manifest path through its absolute
    normal form only: two spellings with the same [abspath] give the same
    result, and in particular a path and its [abspath] do. *)
Theorem same_abspath_same_file_set (w : world) (manifest manifest' : string) :
  path.isabs (getcwd w) = true →
  (path.abspath (getcwd w) manifest = path.abspath (getcwd w) manifest' →
   get_ollama_manifest_data w manifest = get_ollama_manifest_data w manifest')
  ∧ path.abspath (getcwd w) (path.abspath (getcwd w) manifest)
    = path.abspath (getcwd w) manifest
  ∧ get_ollama_manifest_data w (path.abspath (getcwd w) manifest)
    = get_ollama_manifest_data w manifest.
Proof.
  intros Hcwd.
  assert (∀ p q, path.abspath (getcwd w) p = path.abspath (getcwd w) q →
                 get_ollama_manifest_data w p = get_ollama_manifest_data w q) as Hsame.
  { intros p q Hpq. unfold get_ollama_manifest_data. by rewrite Hpq. }
  assert (path.abspath (getcwd w) (path.abspath (getcwd w) manifest)
          = path.abspath (getcwd w) manifest) as Hidem.
  { pose proof (isabs_anchored (getcwd w) manifest Hcwd) as Habs.
    rewrite (abspath_path_of (getcwd w) manifest) by done.
    apply abspath_path_of_id;
      [by apply initial_slashes_cases | by apply norm_comps_proper]. }
  split_and!; [apply Hsame | done | by apply Hsame].
Qed.

Lemma same_abspath_same_file_set_witness :
  get_ollama_manifest_data sample_world
    "/srv//models/blobs/../manifests/./registry.ollama.ai/library/llama3/8b"
  = get_ollama_manifest_data sample_world sample_manifest_path.
Proof.
  apply (proj1 (same_abspath_same_file_set sample_world
    "/srv//models/blobs/../manifests/./registry.ollama.ai/library/llama3/8b"
    sample_manifest_path eq_refl)).
  vm_compute. reflexivity.
Defined.

(** X18.  For manifests whose sizes are integers, as [ManifestLayer]
    declares them, the [size] of a file set does not depend on the order of
    the layers, and it is not negative when no size in the manifest is. *)
Theorem size_of_layers (w w' : world) (manifest manifest' : string)
    (m m' : Manifest.t) (fs fs' : ManifestData.t) :
  read_ollama_manifest w (path.abspath (getcwd w) manifest) = Ok m →
  get_ollama_manifest_data w manifest = Ok fs →
  read_ollama_manifest w' (path.abspath (getcwd w') manifest') = Ok m' →
  get_ollama_manifest_data w' manifest' = Ok fs' →
  (ManifestLayer.size (Manifest.config m) = ManifestLayer.size (Manifest.config m') →
   map ManifestLayer.size (Manifest.layers m)
     ≡ₚ map ManifestLayer.size (Manifest.layers m') →
   ManifestData.size fs = ManifestData.size fs')
  ∧ (0 ≤ ManifestLayer.size (Manifest.config m) →
     Forall (λ layer, 0 ≤ ManifestLayer.size layer) (Manifest.layers m) →
     0 ≤ ManifestData.size fs).
Proof.
  assert (∀ w manifest m fs,
    read_ollama_manifest w (path.abspath (getcwd w) manifest) = Ok m →
    get_ollama_manifest_data w manifest = Ok fs →
    ManifestData.size fs
    = foldr Z.add 0 (map ManifestLayer.size (Manifest.layers m))
      + ManifestLayer.size (Manifest.config m)) as Hsize.
  { clear. intros w manifest m fs Hread.
    destruct (get_ollama_manifest_data_decoded w manifest m Hread) as (rel & _ & ->).
    destruct (check_files _ _ _); result_simpl; [| done].
    intros [= <-]. simpl. f_equal.
    induction (Manifest.layers m) as [|l ls IH]; simpl; [done | by rewrite IH]. }
  intros Hread Hfs Hread' Hfs'.
  rewrite (Hsize _ _ _ _ Hread Hfs), (Hsize _ _ _ _ Hread' Hfs'). split.
  - intros -> Hperm. f_equal.
    induction Hperm as [|x l l' _ IH|x y l|l l' l'' _ IH1 _ IH2]; simpl; lia.
  - intros Hc Hl.
    assert (0 ≤ foldr Z.add 0 (map ManifestLayer.size (Manifest.layers m))); [| lia].
    induction Hl as [|l ls Hl _ IH]; simpl; lia.
Qed.

Lemma size_of_layers_witness : 0 ≤ ManifestData.size sample_data.
Proof.
  assert (read_ollama_manifest sample_world
            (path.abspath (getcwd sample_world) sample_manifest_path)
          = Ok sample_manifest) as Hread by (vm_compute; reflexivity).
  assert (get_ollama_manifest_data sample_world sample_manifest_path = Ok sample_data)
    as Hfs by (vm_compute; reflexivity).
  apply (proj2 (size_of_layers sample_world sample_world sample_manifest_path
                  sample_manifest_path sample_manifest sample_manifest
                  sample_data sample_data Hread Hfs Hread Hfs)).
  - vm_compute. discriminate.
  - repeat constructor; vm_compute; discriminate.
Defined.
